(** * Token Usage Tracker: a shallow embedding of [index.js]

    The extension keeps a tree of additive token counters (the usage
    store), fed by the handlers of the host's generation-lifecycle
    events.  This file embeds the store, its time-bucket keys, the price
    lookup, the import/export merge, the lifecycle handlers and the
    background-generation guard, and states the properties of the design
    document against them.

    Conventions of the embedding.
    - Token counts are JavaScript numbers holding integers; they are
      modelled as [Z] (exact below 2^53).
    - A JavaScript object used as a dictionary is a [gmap string _].
    - An object property that some literal of the source omits is an
      [option]; [x || 0] on such a property is [or0].
    - A [Date] is modelled by the two views the code takes of it: its
      calendar parts in the Eastern time zone ([getEasternParts], computed
      by the host's [Intl.DateTimeFormat]) and its [toISOString()].
    - [saveSettings], [eventSource.emit] and [console.log] do not change
      the store and are left out. *)

From Stdlib Require Import ZArith Ascii String Floats Lia.
From stdpp Require Import gmap strings list fin_maps pretty.

Local Open Scope string_scope.
Local Open Scope Z_scope.

(** ** JavaScript helpers *)

(** [x || 0] for a numeric property that may be absent. *)
Definition or0 (x : option Z) : Z := default 0 x.

(** Truthiness of an optional string ([null], [undefined] and the empty
    string are falsy): the key to use when the value is truthy. *)
Definition truthy (x : option string) : option string :=
  match x with
  | Some s => if decide (s = "") then None else Some s
  | None => None
  end.

Definition is_truthy (x : option string) : bool :=
  match truthy x with Some _ => true | None => false end.

(** Truthiness of an optional number: [0] and an absent value are falsy. *)
Definition truthy_num (x : option Z) : option Z :=
  match x with
  | Some n => if decide (n = 0) then None else Some n
  | None => None
  end.

Fixpoint replicate_char (n : nat) (c : Ascii.ascii) : string :=
  match n with
  | O => ""
  | S n' => String c (replicate_char n' c)
  end.

(** [s.padStart(targetLength, c)] for a one-character pad string. *)
Definition padStart (targetLength : nat) (c : Ascii.ascii) (s : string) : string :=
  replicate_char (targetLength - String.length s) c +:+ s.

(** [String(n)] for an integer-valued number. *)
Definition String_of (n : Z) : string := pretty n.

(** [Math.ceil(n / d)] for integers [n] and a positive integer [d]; the
    double quotient of two small integers is an integer exactly when [d]
    divides [n], so the ceiling is the integer one. *)
Definition Math_ceil_div (n d : Z) : Z := - ((- n) / d).

(** ** Time source and bucket keys *)

Record EasternParts := mkParts { year : Z; month : Z; day : Z; hour : Z }.

Record Date := mkDate { getEasternParts : EasternParts; toISOString : string }.

(** ECMAScript's day arithmetic behind [Date.UTC] and [getUTCDay], in days
    since 1970-01-01 (the code divides the millisecond values by
    [24 * 60 * 60 * 1000] straight away). *)
Definition DayFromYear (y : Z) : Z :=
  365 * (y - 1970) + (y - 1969) / 4 - (y - 1901) / 100 + (y - 1601) / 400.

Definition InLeapYear (y : Z) : bool :=
  ((y mod 4 =? 0) && negb (y mod 100 =? 0)) || (y mod 400 =? 0).

(** Days before the first of month [m] (0-based month index). *)
Definition DaysBeforeMonth (y m : Z) : Z :=
  let leap := if InLeapYear y then 1 else 0 in
  match m with
  | 0 => 0 | 1 => 31 | 2 => 59 + leap | 3 => 90 + leap | 4 => 120 + leap
  | 5 => 151 + leap | 6 => 181 + leap | 7 => 212 + leap | 8 => 243 + leap
  | 9 => 273 + leap | 10 => 304 + leap | _ => 334 + leap
  end.

Definition msPerDay : Z := 24 * 60 * 60 * 1000.

(** [Date.UTC(year, monthIndex, day)] in milliseconds, for a calendar
    date (month index 0..11, year outside 0..99). *)
Definition Date_UTC (y monthIndex d : Z) : Z :=
  (DayFromYear y + DaysBeforeMonth y monthIndex + d - 1) * msPerDay.

(** [new Date(t).getUTCDay()]: 0 is Sunday; 1970-01-01 was a Thursday. *)
Definition getUTCDay (t : Z) : Z := (t / msPerDay + 4) mod 7.

Definition pad2 (n : Z) : string := padStart 2 "0"%char (String_of n).

Definition getDayKey (date : Date) : string :=
  let p := getEasternParts date in
  String_of (year p) +:+ "-" +:+ pad2 (month p) +:+ "-" +:+ pad2 (day p).

Definition getHourKey (date : Date) : string :=
  let p := getEasternParts date in
  String_of (year p) +:+ "-" +:+ pad2 (month p) +:+ "-" +:+ pad2 (day p)
    +:+ "T" +:+ pad2 (hour p).

Definition weekNumber (date : Date) : Z :=
  let p := getEasternParts date in
  let easternCalendarDateUtc := Date_UTC (year p) (month p - 1) (day p) in
  let startOfYearUtc := Date_UTC (year p) 0 1 in
  let days := (easternCalendarDateUtc - startOfYearUtc) / msPerDay in
  Math_ceil_div (days + getUTCDay startOfYearUtc + 1) 7.

Definition getWeekKey (date : Date) : string :=
  String_of (year (getEasternParts date)) +:+ "-W" +:+ pad2 (weekNumber date).

Definition getMonthKey (date : Date) : string :=
  let p := getEasternParts date in
  String_of (year p) +:+ "-" +:+ pad2 (month p).

(** The ISO-8601 week key, written from the design document's words:
    weeks run Monday to Sunday, and week 1 of a year is the week that
    contains the year's first Thursday.  A date belongs to the year of
    the Thursday of its week. *)
Definition isoThursday (p : EasternParts) : Z :=
  let dayNumber := DayFromYear (year p) + DaysBeforeMonth (year p) (month p - 1) + day p - 1 in
  let isoWeekday := (dayNumber + 3) mod 7 + 1 in  (* Monday = 1 .. Sunday = 7 *)
  dayNumber + (4 - isoWeekday).

Definition isoYear (p : EasternParts) : Z :=
  let th := isoThursday p in
  if th <? DayFromYear (year p) then year p - 1
  else if DayFromYear (year p + 1) <=? th then year p + 1
  else year p.

Definition firstThursday (y : Z) : Z :=
  let jan1 := DayFromYear y in
  jan1 + (4 - (jan1 + 4) mod 7) mod 7.

Definition isoWeekNumber (p : EasternParts) : Z :=
  (isoThursday p - firstThursday (isoYear p)) / 7 + 1.

Definition isoWeekKey (date : Date) : string :=
  let p := getEasternParts date in
  String_of (isoYear p) +:+ "-W" +:+ pad2 (isoWeekNumber p).

(** ** The usage store *)

(** A nested per-model breakdown entry, [{ input, output, total }]. *)
Record ModelData := mkModelData {
  md_input : Z; md_output : Z; md_total : Z }.

(** A nested per-source breakdown entry; the day buckets give it a
    [models] property, the hour buckets do not. *)
Record SourceData := mkSourceData {
  sd_input : Z; sd_output : Z; sd_total : Z;
  sd_models : option (gmap string ModelData) }.

(** A usage bucket.  Every literal of the source gives a bucket [input],
    [output], [total] and [messageCount]; [reasoning], [models],
    [sources] and (for the session) [startTime] are present in some
    literals only. *)
Record Bucket := mkBucket {
  input : Z;
  output : Z;
  reasoning : option Z;
  total : Z;
  messageCount : Z;
  models : option (gmap string ModelData);
  sources : option (gmap string SourceData);
  startTime : option string }.

Record Usage := mkUsage {
  session : Bucket;
  allTime : Bucket;
  byDay : gmap string Bucket;
  byHour : gmap string Bucket;
  byWeek : gmap string Bucket;
  byMonth : gmap string Bucket;
  byChat : gmap string Bucket;
  byModel : gmap string Bucket;
  bySource : gmap string Bucket }.

(** Prices per million tokens, [{ in, out }], as doubles. *)
Record Price := mkPrice { price_in : float; price_out : float }.

(** Modelled from the spec: the cached external catalog
    ([openRouterPrices] in the persisted layout of the design document),
    which no line of [index.js] declares, reads or writes.  An entry is a
    price per single token, [{ prompt, completion }]. *)
Record CatalogEntry := mkCatalogEntry {
  prompt : option float; completion : option float }.

Record PriceCache := mkPriceCache {
  data : gmap string CatalogEntry; lastFetched : option Z }.

(** The extension's settings object (the UI-only properties
    [showInTopBar] and [miniview] are left out). *)
Record Settings := mkSettings {
  modelColors : gmap string string;
  modelPrices : gmap string Price;
  openRouterPrices : option PriceCache;
  usage : Usage }.

Definition set_usage (u : Usage) (s : Settings) : Settings :=
  mkSettings (modelColors s) (modelPrices s) (openRouterPrices s) u.

(** The bucket literals of the source. *)

(** [{ input: 0, output: 0, total: 0, messageCount: 0 }] *)
Definition emptyBucket : Bucket :=
  mkBucket 0 0 None 0 0 None None None.

(** [{ input: 0, output: 0, total: 0, messageCount: 0, models: {}, sources: {} }] *)
Definition newDayBucket : Bucket :=
  mkBucket 0 0 None 0 0 (Some ∅) (Some ∅) None.

(** [{ input: 0, output: 0, reasoning: 0, total: 0, messageCount: 0, models: {}, sources: {} }] *)
Definition newHourBucket : Bucket :=
  mkBucket 0 0 (Some 0) 0 0 (Some ∅) (Some ∅) None.

Definition newModelData : ModelData := mkModelData 0 0 0.

Definition defaultUsage : Usage :=
  {| session := mkBucket 0 0 (Some 0) 0 0 None None None;
     allTime := mkBucket 0 0 (Some 0) 0 0 None None None;
     byDay := ∅; byHour := ∅; byWeek := ∅; byMonth := ∅;
     byChat := ∅; byModel := ∅; bySource := ∅ |}.

Definition defaultSettings : Settings :=
  {| modelColors := ∅; modelPrices := ∅; openRouterPrices := None;
     usage := defaultUsage |}.

(** [if (!m[k]) m[k] = init;] on a dictionary of objects. *)
Definition ensure {A} (k : string) (init : A) (m : gmap string A) : gmap string A :=
  match m !! k with
  | Some _ => m
  | None => <[k := init]> m
  end.

(** The arguments of one [recordUsage] call, in the order of its
    parameter list. *)
Record RecordCall := mkCall {
  inputTokens : Z;
  outputTokens : Z;
  chatId : option string;
  modelId : option string;
  sourceId : option string;
  reasoningTokens : Z }.

Definition totalTokens (c : RecordCall) : Z :=
  inputTokens c + outputTokens c + reasoningTokens c.

(** The closure [addTokens] of [recordUsage]; [bucket.input || 0] is
    [bucket.input] for a property that every bucket has. *)
Definition addTokens (c : RecordCall) (bucket : Bucket) : Bucket :=
  {| input := input bucket + inputTokens c;
     output := output bucket + outputTokens c;
     reasoning := Some (or0 (reasoning bucket) + reasoningTokens c);
     total := total bucket + totalTokens c;
     messageCount := messageCount bucket + 1;
     models := models bucket;
     sources := sources bucket;
     startTime := startTime bucket |}.

(** [x.input += inputTokens; x.output += outputTokens; x.total += totalTokens]
    on a nested model entry. *)
Definition addModelData (c : RecordCall) (x : ModelData) : ModelData :=
  {| md_input := md_input x + inputTokens c;
     md_output := md_output x + outputTokens c;
     md_total := md_total x + totalTokens c |}.

(** [if (!o.models) o.models = {}; if (!o.models[modelId]) o.models[modelId] = {0,0,0};
    ... += ...] on an optional [models] property. *)
Definition trackModel (c : RecordCall) (m : string)
    (ms : option (gmap string ModelData)) : option (gmap string ModelData) :=
  Some (alter (addModelData c) m (ensure m newModelData (default ∅ ms))).

Definition set_models (ms : option (gmap string ModelData)) (b : Bucket) : Bucket :=
  mkBucket (input b) (output b) (reasoning b) (total b) (messageCount b)
           ms (sources b) (startTime b).

Definition set_sources (ss : option (gmap string SourceData)) (b : Bucket) : Bucket :=
  mkBucket (input b) (output b) (reasoning b) (total b) (messageCount b)
           (models b) ss (startTime b).

(** [{ input: 0, output: 0, total: 0, models: {} }] *)
Definition newDaySource : SourceData := mkSourceData 0 0 0 (Some ∅).

(** [{ input: 0, output: 0, total: 0 }] *)
Definition newHourSource : SourceData := mkSourceData 0 0 0 None.

(** The per-source entry of a day bucket: created with [models: {}], its
    three counters increased, and the model tracked inside it when a
    model id is given. *)
Definition addDaySource (c : RecordCall) (x : SourceData) : SourceData :=
  let x1 := mkSourceData (sd_input x + inputTokens c) (sd_output x + outputTokens c)
                         (sd_total x + totalTokens c) (sd_models x) in
  match truthy (modelId c) with
  | Some m => mkSourceData (sd_input x1) (sd_output x1) (sd_total x1)
                           (trackModel c m (sd_models x1))
  | None => x1
  end.

Definition trackDaySource (c : RecordCall) (src : string)
    (ss : option (gmap string SourceData)) : option (gmap string SourceData) :=
  Some (alter (addDaySource c) src
          (ensure src newDaySource (default ∅ ss))).

(** The per-source entry of an hour bucket: created without [models]. *)
Definition addHourSource (c : RecordCall) (x : SourceData) : SourceData :=
  mkSourceData (sd_input x + inputTokens c) (sd_output x + outputTokens c)
               (sd_total x + totalTokens c) (sd_models x).

Definition trackHourSource (c : RecordCall) (src : string)
    (ss : option (gmap string SourceData)) : option (gmap string SourceData) :=
  Some (alter (addHourSource c) src
          (ensure src newHourSource (default ∅ ss))).

(** The "By day" block of [recordUsage]. *)
Definition recordDay (c : RecordCall) (dayKey : string)
    (m : gmap string Bucket) : gmap string Bucket :=
  let m1 := alter (addTokens c) dayKey (ensure dayKey newDayBucket m) in
  let m2 := match truthy (modelId c) with
            | Some mid => alter (fun b => set_models (trackModel c mid (models b)) b) dayKey m1
            | None => m1
            end in
  match truthy (sourceId c) with
  | Some src => alter (fun b => set_sources (trackDaySource c src (sources b)) b) dayKey m2
  | None => m2
  end.

(** The "By hour" block of [recordUsage]. *)
Definition recordHour (c : RecordCall) (hourKey : string)
    (m : gmap string Bucket) : gmap string Bucket :=
  let m1 := alter (addTokens c) hourKey (ensure hourKey newHourBucket m) in
  let m2 := match truthy (modelId c) with
            | Some mid => alter (fun b => set_models (trackModel c mid (models b)) b) hourKey m1
            | None => m1
            end in
  match truthy (sourceId c) with
  | Some src => alter (fun b => set_sources (trackHourSource c src (sources b)) b) hourKey m2
  | None => m2
  end.

(** The bucket that the "By day" block leaves under the day key. *)
Definition dayBucketAfter (c : RecordCall) (b0 : Bucket) : Bucket :=
  let b1 := addTokens c b0 in
  let b2 := match truthy (modelId c) with
            | Some mid => set_models (trackModel c mid (models b1)) b1
            | None => b1
            end in
  match truthy (sourceId c) with
  | Some src => set_sources (trackDaySource c src (sources b2)) b2
  | None => b2
  end.

Definition hourBucketAfter (c : RecordCall) (b0 : Bucket) : Bucket :=
  let b1 := addTokens c b0 in
  let b2 := match truthy (modelId c) with
            | Some mid => set_models (trackModel c mid (models b1)) b1
            | None => b1
            end in
  match truthy (sourceId c) with
  | Some src => set_sources (trackHourSource c src (sources b2)) b2
  | None => b2
  end.

(** [if (!m[k]) m[k] = { input: 0, output: 0, total: 0, messageCount: 0 }; addTokens(m[k]);] *)
Definition recordKeyed (c : RecordCall) (k : string)
    (m : gmap string Bucket) : gmap string Bucket :=
  alter (addTokens c) k (ensure k emptyBucket m).

(** The same under [if (id)]. *)
Definition recordIdentity (c : RecordCall) (id : option string)
    (m : gmap string Bucket) : gmap string Bucket :=
  match truthy id with
  | Some k => recordKeyed c k m
  | None => m
  end.

(** [recordUsage(inputTokens, outputTokens, chatId, modelId, sourceId,
    reasoningTokens)], with [now] the value of [getCurrentEasternTime()]
    at the call. *)
Definition recordUsage (now : Date) (c : RecordCall) (s : Settings) : Settings :=
  let u := usage s in
  set_usage
    {| session := addTokens c (session u);
       allTime := addTokens c (allTime u);
       byDay := recordDay c (getDayKey now) (byDay u);
       byHour := recordHour c (getHourKey now) (byHour u);
       byWeek := recordKeyed c (getWeekKey now) (byWeek u);
       byMonth := recordKeyed c (getMonthKey now) (byMonth u);
       byChat := recordIdentity c (chatId c) (byChat u);
       byModel := recordIdentity c (modelId c) (byModel u);
       bySource := recordIdentity c (sourceId c) (bySource u) |} s.

(** [resetSession()] *)
Definition resetSession (now : Date) (s : Settings) : Settings :=
  let u := usage s in
  set_usage
    {| session := {| input := 0; output := 0; reasoning := None; total := 0;
                     messageCount := 0; models := None; sources := None;
                     startTime := Some (toISOString now) |};
       allTime := allTime u;
       byDay := byDay u; byHour := byHour u; byWeek := byWeek u;
       byMonth := byMonth u; byChat := byChat u; byModel := byModel u;
       bySource := bySource u |} s.

Definition set_startTime (t : option string) (b : Bucket) : Bucket :=
  mkBucket (input b) (output b) (reasoning b) (total b) (messageCount b)
           (models b) (sources b) t.

(** [resetAllUsage()]: a clone of [defaultSettings.usage] whose session
    gets a start time. *)
Definition resetAllUsage (now : Date) (s : Settings) : Settings :=
  set_usage
    {| session := set_startTime (Some (toISOString now)) (session defaultUsage);
       allTime := allTime defaultUsage;
       byDay := byDay defaultUsage; byHour := byHour defaultUsage;
       byWeek := byWeek defaultUsage; byMonth := byMonth defaultUsage;
       byChat := byChat defaultUsage; byModel := byModel defaultUsage;
       bySource := bySource defaultUsage |} s.

(** ** Price resolution *)

Definition zeroPrice : Price := mkPrice 0%float 0%float.

(** [getModelPrice(modelId)]: [settings.modelPrices[modelId] || { in: 0, out: 0 }]. *)
Definition getModelPrice (s : Settings) (modelId : string) : Price :=
  match modelPrices s !! modelId with
  | Some p => p
  | None => zeroPrice
  end.



(** ** Import and export *)

Inductive result (A : Type) : Type :=
  | Ok (a : A)
  | Throw (message : string).
Arguments Ok {A} a.
Arguments Throw {A} message.

Definition extensionName : string := "token-usage-tracker".

(** The [usage] property of a parsed export file.  [importUsageData]
    looks at [session], [byDay] and [byHour] only. *)
Record ExportedUsage := mkExportedUsage {
  x_session : option Bucket;
  x_allTime : option Bucket;
  x_byDay : option (gmap string Bucket);
  x_byHour : option (gmap string Bucket);
  x_byWeek : option (gmap string Bucket);
  x_byMonth : option (gmap string Bucket);
  x_byChat : option (gmap string Bucket);
  x_byModel : option (gmap string Bucket);
  x_bySource : option (gmap string Bucket) }.

(** A parsed export file: its buckets are typed as the store's own. *)
Record ExportData := mkExportData {
  x_version : option string;
  x_exportDate : option string;
  x_extensionName : option string;
  x_usage : option ExportedUsage;
  x_modelPrices : option (gmap string Price);
  x_modelColors : option (gmap string string) }.

(** [exportUsageData()], as the file that [JSON.stringify] writes and
    [JSON.parse] reads back: every property of the settings is a number,
    a string or a dictionary of those, so the round trip through JSON
    returns the same data. *)
Definition exportUsageData (now : Date) (s : Settings) : ExportData :=
  let u := usage s in
  {| x_version := Some "1.0";
     x_exportDate := Some (toISOString now);
     x_extensionName := Some extensionName;
     x_usage := Some {| x_session := Some (session u); x_allTime := Some (allTime u);
                        x_byDay := Some (byDay u); x_byHour := Some (byHour u);
                        x_byWeek := Some (byWeek u); x_byMonth := Some (byMonth u);
                        x_byChat := Some (byChat u); x_byModel := Some (byModel u);
                        x_bySource := Some (bySource u) |};
     x_modelPrices := Some (modelPrices s);
     x_modelColors := Some (modelColors s) |}.

(** The four [+=] lines of the merge of an existing key. *)
Definition mergeCounters (existing incoming : Bucket) : Bucket :=
  {| input := input existing + input incoming;
     output := output existing + output incoming;
     reasoning := reasoning existing;
     total := total existing + total incoming;
     messageCount := messageCount existing + messageCount incoming;
     models := models existing;
     sources := sources existing;
     startTime := startTime existing |}.

(** The body of [for (const [key, incoming] of Object.entries(...))]. *)
Definition mergeEntry (key : string) (incoming : Bucket)
    (store : gmap string Bucket) : gmap string Bucket :=
  match store !! key with
  | None => <[key := incoming]> store
  | Some existing => <[key := mergeCounters existing incoming]> store
  end.

Definition mergeKeyed (incoming : option (gmap string Bucket))
    (store : gmap string Bucket) : gmap string Bucket :=
  match incoming with
  | Some m => map_fold mergeEntry store m
  | None => store
  end.

(** [if (src) Object.assign(target, src)] *)
Definition Object_assign {A} (target : gmap string A)
    (src : option (gmap string A)) : gmap string A :=
  match src with
  | Some m => m ∪ target
  | None => target
  end.

(** [importUsageData(jsonString)]; the argument is the outcome of
    [JSON.parse(jsonString)], [None] when it throws.  The result is the
    settings after the merge and the success message. *)
Definition importUsageData (parsed : option ExportData) (s : Settings)
    : result (Settings * string) :=
  match parsed with
  | None => Throw "Invalid JSON format"
  | Some data =>
      match truthy (x_version data), x_usage data with
      | Some _, Some xu =>
          let mismatch :=
            match truthy (x_extensionName data) with
            | Some n =>
                if decide (n = extensionName) then None
                else Some ("Data was exported from a different extension: " +:+ n)
            | None => None
            end in
          match mismatch with
          | Some msg => Throw msg
          | None =>
              let u := usage s in
              let u' := {| session := session u;
                           allTime := allTime u;
                           byDay := mergeKeyed (x_byDay xu) (byDay u);
                           byHour := mergeKeyed (x_byHour xu) (byHour u);
                           byWeek := byWeek u; byMonth := byMonth u;
                           byChat := byChat u; byModel := byModel u;
                           bySource := bySource u |} in
              Ok ({| modelColors := Object_assign (modelColors s) (x_modelColors data);
                     modelPrices := Object_assign (modelPrices s) (x_modelPrices data);
                     openRouterPrices := openRouterPrices s;
                     usage := u' |},
                  "Import successful. Merged data from "
                    +:+ default "unknown date" (truthy (x_exportDate data)) +:+ ".")
          end
      | _, _ => Throw "Invalid export format. Missing required fields."
      end
  end.

(** ** The host, as the handlers see it *)

(** A chat message: [mes], [extra?.token_count] and [extra?.reasoning]. *)
Record Message := mkMessage {
  mes : option string;
  token_count : option Z;
  msg_reasoning : option string }.

(** The host's streaming buffer: [result] and
    [reasoningHandler?.reasoning]. *)
Record StreamingProcessor := mkStreaming {
  sp_result : option string;
  sp_reasoning : option string }.

(** What a handler reads from the host while it runs.  [tokenCount] is
    the count that [getTokenCountAsync] resolves to or, when it rejects,
    the character-length estimate of [countTokens]'s catch block. *)
Record Host := mkHost {
  tokenCount : string -> Z;
  chat : list Message;
  getCurrentChatId : option string;
  streamingProcessor : option StreamingProcessor;
  getCurrentEasternTime : Date;
  getCurrentModelId : string;
  getCurrentSourceId : string }.

(** [countTokens(text)] *)
Definition countTokens (h : Host) (text : option string) : Z :=
  match truthy text with
  | Some t => tokenCount h t
  | None => 0
  end.

(** The prompt payload of [GENERATE_AFTER_DATA]. *)
Record FunctionRef := mkFunctionRef {
  fn_name : option string; fn_arguments : option string }.

Record ToolCall := mkToolCall { tc_function : option FunctionRef }.

Record ContentPart := mkPart { part_type : string; part_text : option string }.

Inductive Content :=
  | ContentString (s : string)
  | ContentParts (parts : list ContentPart).

Record PromptMessage := mkPromptMessage {
  pm_content : option Content;
  pm_role : option string;
  pm_name : option string;
  pm_tool_calls : option (list ToolCall);
  pm_invocations : option (list ToolCall);
  pm_function_call : option FunctionRef }.

Inductive Prompt :=
  | PromptString (s : string)
  | PromptMessages (messages : list PromptMessage).

Definition sumZ (l : list Z) : Z := foldr Z.add 0 l.

Definition countFunctionRef (h : Host) (f : option FunctionRef) : Z :=
  match f with
  | Some fn => countTokens h (fn_name fn) + countTokens h (fn_arguments fn)
  | None => 0
  end.

Definition countToolCalls (h : Host) (calls : option (list ToolCall)) : Z :=
  sumZ ((fun c => countFunctionRef h (tc_function c)) <$> default [] calls).

Definition countPart (h : Host) (part : ContentPart) : Z :=
  (if decide (part_type part = "text") then countTokens h (part_text part) else 0)
  + (if decide (part_type part = "image_url" ∨ part_type part = "image") then 765 else 0).

Definition countContent (h : Host) (c : option Content) : Z :=
  match c with
  | Some (ContentString s) => countTokens h (Some s)
  | Some (ContentParts parts) => sumZ (countPart h <$> parts)
  | None => 0
  end.

Definition countPromptMessage (h : Host) (m : PromptMessage) : Z :=
  countContent h (pm_content m)
  + (if is_truthy (pm_role m) then 1 else 0)
  + countTokens h (pm_name m)
  + countToolCalls h (pm_tool_calls m)
  + countToolCalls h (pm_invocations m)
  + countFunctionRef h (pm_function_call m).

(** [countInputTokens(generate_data)], on [generate_data.prompt]. *)
Definition countInputTokens (h : Host) (prompt : option Prompt) : Z :=
  match prompt with
  | Some (PromptString s) => countTokens h (Some s)
  | Some (PromptMessages messages) =>
      sumZ (countPromptMessage h <$> messages) + Z.of_nat (length messages) * 3
  | None => 0
  end.

(** ** The generation-lifecycle tracker *)

(** The module-level coordination variables, the settings they feed, and
    two pieces of bookkeeping of the embedding: [baselineTasks] holds the
    results of the fire-and-forget baseline measurements that
    [handleGenerationStarted] has started and that have not yet assigned
    [preContinueTokenCount]; [recorded] lists the [recordUsage] calls made
    so far, oldest first.  Each handler is modelled as running to
    completion: what other events do at its [await] points is not part
    of the embedding. *)
Record Tracker := mkTracker {
  settings : Settings;
  pendingInputTokensPromise : option Z;
  pendingModelId : option string;
  pendingSourceId : option string;
  preContinueTokenCount : Z;
  isQuietGeneration : bool;
  isImpersonateGeneration : bool;
  isTrackingBackground : bool;
  baselineTasks : list Z;
  recorded : list RecordCall }.

Definition initialTracker (s : Settings) : Tracker :=
  mkTracker s None None None 0 false false false [] [].

Definition set_pending (p : option Z) (m src : option string) (t : Tracker) : Tracker :=
  mkTracker (settings t) p m src (preContinueTokenCount t) (isQuietGeneration t)
            (isImpersonateGeneration t) (isTrackingBackground t) (baselineTasks t)
            (recorded t).

Definition set_preContinue (n : Z) (t : Tracker) : Tracker :=
  mkTracker (settings t) (pendingInputTokensPromise t) (pendingModelId t)
            (pendingSourceId t) n (isQuietGeneration t) (isImpersonateGeneration t)
            (isTrackingBackground t) (baselineTasks t) (recorded t).

Definition set_generationType (quiet impersonate : bool) (t : Tracker) : Tracker :=
  mkTracker (settings t) (pendingInputTokensPromise t) (pendingModelId t)
            (pendingSourceId t) (preContinueTokenCount t) quiet impersonate
            (isTrackingBackground t) (baselineTasks t) (recorded t).

Definition set_tracking (b : bool) (t : Tracker) : Tracker :=
  mkTracker (settings t) (pendingInputTokensPromise t) (pendingModelId t)
            (pendingSourceId t) (preContinueTokenCount t) (isQuietGeneration t)
            (isImpersonateGeneration t) b (baselineTasks t) (recorded t).

Definition set_baselineTasks (l : list Z) (t : Tracker) : Tracker :=
  mkTracker (settings t) (pendingInputTokensPromise t) (pendingModelId t)
            (pendingSourceId t) (preContinueTokenCount t) (isQuietGeneration t)
            (isImpersonateGeneration t) (isTrackingBackground t) l (recorded t).

(** A call of [recordUsage] from a handler. *)
Definition record (h : Host) (c : RecordCall) (t : Tracker) : Tracker :=
  mkTracker (recordUsage (getCurrentEasternTime h) c (settings t))
            (pendingInputTokensPromise t) (pendingModelId t) (pendingSourceId t)
            (preContinueTokenCount t) (isQuietGeneration t)
            (isImpersonateGeneration t) (isTrackingBackground t) (baselineTasks t)
            (recorded t ++ [c]).

(** [handleGenerateAfterData(generate_data, dryRun)]: the promise is
    stored unresolved; [Some n] is a stored promise that resolves to [n]. *)
Definition handleGenerateAfterData (h : Host) (prompt : option Prompt) (dryRun : bool)
    (t : Tracker) : Tracker :=
  if dryRun then t
  else set_pending (Some (countInputTokens h prompt))
                   (Some (getCurrentModelId h)) (Some (getCurrentSourceId h)) t.

(** [handleGenerationStarted(type, params, isDryRun)] *)
Definition handleGenerationStarted (h : Host) (type : string) (isDryRun : bool)
    (t : Tracker) : Tracker :=
  if isDryRun then t
  else
    let t1 := set_generationType (bool_decide (type = "quiet"))
                                 (bool_decide (type = "impersonate")) t in
    let t2 := set_preContinue 0 t1 in
    if decide (type = "continue") then
      match last (chat h) with
      | Some lastMessage =>
          match truthy_num (token_count lastMessage) with
          | Some n => set_preContinue n t2
          | None =>
              let tokens := countTokens h (Some (default "" (truthy (mes lastMessage))))
                            + countTokens h (msg_reasoning lastMessage) in
              set_baselineTasks (baselineTasks t2 ++ [tokens]) t2
          end
      | None => t2
      end
    else t2.

(** The oldest pending baseline measurement completes and assigns
    [preContinueTokenCount]. *)
Definition settleBaselineTask (t : Tracker) : Tracker :=
  match baselineTasks t with
  | tokens :: rest => set_preContinue tokens (set_baselineTasks rest t)
  | [] => t
  end.

(** The output and reasoning counts that [handleMessageReceived] takes
    from a message, before the continue adjustment. *)
Definition messageReasoningTokens (h : Host) (message : Message) : Z :=
  countTokens h (msg_reasoning message).

Definition messageOutputTokens (h : Host) (message : Message) : Z :=
  let reasoningTokens := messageReasoningTokens h message in
  match truthy_num (token_count message) with
  | Some tc =>
      if (0 <? reasoningTokens) && (reasoningTokens <? tc)
      then tc - reasoningTokens else tc
  | None => countTokens h (mes message)
  end.

(** [handleMessageReceived(messageIndex, type)] *)
Definition handleMessageReceived (h : Host) (messageIndex : nat) (type : string)
    (t : Tracker) : Tracker :=
  if decide (type = "command" ∨ type = "first_message") then t
  else
    match pendingInputTokensPromise t with
    | None => t
    | Some inputTokens =>
        match chat h !! messageIndex with
        | None => t
        | Some message =>
            match truthy (mes message) with
            | None => t
            | Some _ =>
                let reasoningTokens := messageReasoningTokens h message in
                let outputTokens := messageOutputTokens h message in
                let outputTokens :=
                  if bool_decide (type = "continue") && (0 <? preContinueTokenCount t)
                  then Z.max 0 (outputTokens - preContinueTokenCount t)
                  else outputTokens in
                let t1 := set_preContinue 0 t in
                let modelId := pendingModelId t1 in
                let sourceId := pendingSourceId t1 in
                let t2 := set_pending None None None t1 in
                record h (mkCall inputTokens outputTokens (getCurrentChatId h)
                                 modelId sourceId reasoningTokens) t2
            end
        end
    end.

(** The partial output that [handleGenerationStopped] counts from the
    streaming buffer: the response text, plus the reasoning text. *)
Definition partialOutputTokens (h : Host) : Z :=
  match streamingProcessor h with
  | Some sp =>
      (if is_truthy (sp_result sp) then countTokens h (sp_result sp) else 0)
      + (if is_truthy (sp_reasoning sp) then countTokens h (sp_reasoning sp) else 0)
  | None => 0
  end.

(** [handleGenerationStopped()] *)
Definition handleGenerationStopped (h : Host) (t : Tracker) : Tracker :=
  match pendingInputTokensPromise t with
  | None => t
  | Some inputTokens =>
      let outputTokens := partialOutputTokens h in
      let modelId := pendingModelId t in
      let sourceId := pendingSourceId t in
      let t1 := set_preContinue 0 (set_pending None None None t) in
      record h (mkCall inputTokens outputTokens (getCurrentChatId h)
                       modelId sourceId 0) t1
  end.

(** [handleChatChanged(chatId)] *)
Definition handleChatChanged (t : Tracker) : Tracker :=
  set_generationType false false (set_preContinue 0 (set_pending None None None t)).

(** [handleImpersonateReady(text)] *)
Definition handleImpersonateReady (h : Host) (text : option string)
    (t : Tracker) : Tracker :=
  match pendingInputTokensPromise t with
  | None => t
  | Some inputTokens =>
      let modelId := pendingModelId t in
      let sourceId := pendingSourceId t in
      let t1 := set_pending None None None t in
      let outputTokens := countTokens h text in
      let t2 := record h (mkCall inputTokens outputTokens (getCurrentChatId h)
                                 modelId sourceId 0) t1 in
      set_generationType (isQuietGeneration t2) false t2
  end.

(** [flushQuietGeneration()] *)
Definition flushQuietGeneration (h : Host) (t : Tracker) : Tracker :=
  match pendingInputTokensPromise t with
  | None => t
  | Some inputTokens =>
      let modelId := pendingModelId t in
      let sourceId := pendingSourceId t in
      let outputTokens :=
        match streamingProcessor h with
        | Some sp => if is_truthy (sp_result sp) then countTokens h (sp_result sp) else 0
        | None => 0
        end in
      let t1 := if (0 <? inputTokens) || (0 <? outputTokens)
                then record h (mkCall inputTokens outputTokens None modelId sourceId 0) t
                else t in
      set_generationType false (isImpersonateGeneration t1)
                         (set_pending None None None t1)
  end.

(** ** Background generations *)

(** An asynchronous host function as the tracker sees it: it returns or
    throws, and leaves the tracker in the state its own (possibly
    instrumented) calls have produced. *)
Definition HostFn (R : Type) : Type := Tracker -> result R * Tracker.

(** [handleBackgroundGeneration(originalFn, context, args, inputCounter,
    outputCounter)]; [originalFn] stands for [originalFn.apply(context,
    args)]. *)
Definition handleBackgroundGeneration {R} (h : Host) (originalFn : HostFn R)
    (inputCounter : unit -> result Z) (outputCounter : R -> result Z)
    : HostFn R := fun t =>
  if isTrackingBackground t then originalFn t
  else
    let modelId := getCurrentModelId h in
    let sourceId := getCurrentSourceId h in
    (* try *)
    let t1 := set_tracking true t in
    let inputTokens :=
      match inputCounter () with Ok n => n | Throw _ => 0 end in
    match originalFn t1 with
    | (Throw e, t2) =>
        (* finally *)
        (Throw e, set_tracking false t2)
    | (Ok res, t2) =>
        let t3 :=
          match outputCounter res with
          | Ok outputTokens =>
              if (0 <? outputTokens) || (0 <? inputTokens)
              then record h (mkCall inputTokens outputTokens None
                                    (Some modelId) (Some sourceId) 0) t2
              else t2
          | Throw _ => t2
          end in
        (* finally *)
        (Ok res, set_tracking false t3)
    end.

(** What [sendRequest] resolves to: an object with a [content] property,
    a string, or anything else. *)
Inductive Response :=
  | ResponseObject (content : option string)
  | ResponseString (s : string)
  | ResponseOther.

(** The replacement of [ConnectionManagerRequestService.sendRequest]
    that [patchConnectionManager] installs. *)
Definition sendRequest (h : Host) (originalSendRequest : HostFn Response)
    (messages : list PromptMessage) : HostFn Response := fun t =>
  if isTrackingBackground t then originalSendRequest t
  else
    let modelId := getCurrentModelId h in
    let sourceId := getCurrentSourceId h in
    (* try *)
    let t1 := set_tracking true t in
    let inputTokens := countInputTokens h (Some (PromptMessages messages)) in
    match originalSendRequest t1 with
    | (Throw e, t2) =>
        (* finally *)
        (Throw e, set_tracking false t2)
    | (Ok res, t2) =>
        let outputTokens :=
          match res with
          | ResponseObject (Some content) => countTokens h (Some content)
          | ResponseString s => countTokens h (Some s)
          | _ => 0
          end in
        let t3 :=
          if (0 <? outputTokens) || (0 <? inputTokens)
          then record h (mkCall inputTokens outputTokens None
                                (Some modelId) (Some sourceId) 0) t2
          else t2 in
        (* finally *)
        (Ok res, set_tracking false t3)
    end.

(** ** Store operations as a sequence *)

Inductive StoreOp :=
  | OpRecord (now : Date) (c : RecordCall)
  | OpResetSession (now : Date)
  | OpImport (parsed : option ExportData).

Definition runOp (op : StoreOp) (s : Settings) : Settings :=
  match op with
  | OpRecord now c => recordUsage now c s
  | OpResetSession now => resetSession now s
  | OpImport parsed =>
      match importUsageData parsed s with
      | Ok (s', _) => s'
      | Throw _ => s
      end
  end.

Definition runOps (ops : list StoreOp) (s : Settings) : Settings :=
  foldl (fun s op => runOp op s) s ops.

(** The [total] arguments of the [recordUsage] calls of a sequence. *)
Definition recordedTotal (op : StoreOp) : Z :=
  match op with
  | OpRecord _ c => totalTokens c
  | _ => 0
  end.

(** The store after it has imported its own export file (written and
    parsed at time [now]). *)
Definition reimport (now : Date) (s : Settings) : Settings :=
  runOp (OpImport (Some (exportUsageData now s))) s.


(** ** Predicates of the statements *)

(** The invariant of a bucket: [total == input + output + reasoning],
    an absent [reasoning] read as 0. *)
Definition bucket_ok (b : Bucket) : Prop :=
  total b = input b + output b + or0 (reasoning b).

(** The invariant on the session, the all-time bucket and every entry
    of the seven keyed maps. *)
Definition store_ok (u : Usage) : Prop :=
  bucket_ok (session u) ∧ bucket_ok (allTime u)
  ∧ map_Forall (fun _ b => bucket_ok b) (byDay u)
  ∧ map_Forall (fun _ b => bucket_ok b) (byHour u)
  ∧ map_Forall (fun _ b => bucket_ok b) (byWeek u)
  ∧ map_Forall (fun _ b => bucket_ok b) (byMonth u)
  ∧ map_Forall (fun _ b => bucket_ok b) (byChat u)
  ∧ map_Forall (fun _ b => bucket_ok b) (byModel u)
  ∧ map_Forall (fun _ b => bucket_ok b) (bySource u).

(** The per-model breakdown inside the per-source entry [src] of a
    bucket, an entry that does not exist yet standing for the literal
    [init] that [recordUsage] would create. *)
Definition sourceModels (init : SourceData) (b : Bucket) (src : string)
    : option (gmap string ModelData) :=
  sd_models (default init (default ∅ (sources b) !! src)).

(** The five counters of two buckets differ by one call's amounts. *)
Definition counted (c : RecordCall) (before after : Bucket) : Prop :=
  input after = input before + inputTokens c
  ∧ output after = output before + outputTokens c
  ∧ or0 (reasoning after) = or0 (reasoning before) + reasoningTokens c
  ∧ total after = total before + totalTokens c
  ∧ messageCount after = messageCount before + 1.






(** ** Concrete inputs *)

(** 31 December 2024, 10 h Eastern time. *)
Definition dec31_2024 : Date :=
  mkDate (mkParts 2024 12 31 10) "2024-12-31T15:00:00.000Z".

#[local] Set Warnings "-inexact-float".


#[local] Set Warnings "+inexact-float".

(** A store holding one exchange of 1 input, 1 output and 1 reasoning
    token, recorded on 31 December 2024 after a full reset. *)
Definition oneExchange : RecordCall := mkCall 1 1 None None None 1.

Definition storeA : Settings :=
  recordUsage dec31_2024 oneExchange (resetAllUsage dec31_2024 defaultSettings).

(** A quiet flush as [recordUsage] sees it: 300 input and 45 output
    tokens, no chat id, no model id, no source id. *)
Definition anonymousCall : RecordCall := mkCall 300 45 None None None 0.

(** A host whose tokenizer counts one token per character. *)
Definition charHost (messages : list Message) (sp : option StreamingProcessor) : Host :=
  {| tokenCount := fun text => Z.of_nat (String.length text);
     chat := messages;
     getCurrentChatId := Some "chat-1";
     streamingProcessor := sp;
     getCurrentEasternTime := dec31_2024;
     getCurrentModelId := "gpt-4o";
     getCurrentSourceId := "openai" |}.

(** The continue scenario: the last message holds 500 tokens when the
    continue starts and 620 when it is received. *)
Definition message500 : Message := mkMessage (Some "Once upon a time") (Some 500) None.

Definition message620 : Message :=
  mkMessage (Some "Once upon a time, there was a tracker") (Some 620) None.


(** The stopped scenario: 300 prompt tokens counted, 45 characters
    streamed. *)
Definition stoppedHost : Host :=
  charHost [] (Some (mkStreaming (Some "The quick brown fox jumps over the lazy dog..") None)).

Definition stoppedTracker : Tracker :=
  set_pending (Some 300) (Some "gpt-4o") (Some "openai") (initialTracker defaultSettings).

(** A host function that answers without touching the tracker, and one
    that throws. *)
Definition answering : HostFn Response := fun t => (Ok (ResponseString "fine"), t).

Definition failing : HostFn Response := fun t => (Throw "HTTP 500", t).


(** ** Reading the store *)


(** [day >= startDate && day <= endDate] on strings: JavaScript compares
    code unit by code unit, a proper prefix being smaller.  [String.leb]
    compares byte by byte in the same way; the two orders agree on ASCII
    strings, which the day keys and the dates of the date picker are. *)
Definition inRange (startDate endDate day : string) : bool :=
  String.leb startDate day && String.leb day endDate.

(** The body of the loop of [getUsageForRange]. *)
Definition addDayToRange (startDate endDate day : string) (data result : Bucket)
    : Bucket :=
  if inRange startDate endDate day then
    {| input := input result + input data;
       output := output result + output data;
       reasoning := reasoning result;
       total := total result + total data;
       messageCount := messageCount result + messageCount data;
       models := models result;
       sources := sources result;
       startTime := startTime result |}
  else result.

(** [getUsageForRange(startDate, endDate)] *)
Definition getUsageForRange (s : Settings) (startDate endDate : string) : Bucket :=
  map_fold (addDayToRange startDate endDate) emptyBucket (byDay (usage s)).

(** The part of [getUsageStats()] that comes from the store (the
    tokenizer name comes from the host). *)
Record Stats := mkStats {
  stats_session : Bucket;
  stats_allTime : Bucket;
  stats_today : Bucket;
  stats_thisHour : Bucket;
  stats_thisWeek : Bucket;
  stats_thisMonth : Bucket;
  stats_byDay : gmap string Bucket;
  stats_byHour : gmap string Bucket;
  stats_byWeek : gmap string Bucket;
  stats_byMonth : gmap string Bucket;
  stats_byChat : gmap string Bucket;
  stats_byModel : gmap string Bucket }.

Definition getUsageStats (now : Date) (s : Settings) : Stats :=
  let u := usage s in
  {| stats_session := session u;
     stats_allTime := allTime u;
     stats_today := default (mkBucket 0 0 None 0 0 (Some ∅) None None)
                            (byDay u !! getDayKey now);
     stats_thisHour := default emptyBucket (byHour u !! getHourKey now);
     stats_thisWeek := default emptyBucket (byWeek u !! getWeekKey now);
     stats_thisMonth := default emptyBucket (byMonth u !! getMonthKey now);
     stats_byDay := byDay u; stats_byHour := byHour u;
     stats_byWeek := byWeek u; stats_byMonth := byMonth u;
     stats_byChat := byChat u; stats_byModel := byModel u |}.

(** ** Sequences without an import or without a session reset *)

Definition isImport (op : StoreOp) : bool :=
  match op with OpImport _ => true | _ => false end.

Definition isResetSession (op : StoreOp) : bool :=
  match op with OpResetSession _ => true | _ => false end.

(** The number of [recordUsage] calls of a sequence. *)
Definition recordedCount (op : StoreOp) : Z :=
  match op with OpRecord _ _ => 1 | _ => 0 end.

(** A call whose three amounts are non-negative. *)
Definition nonnegCall (c : RecordCall) : Prop :=
  0 ≤ inputTokens c ∧ 0 ≤ outputTokens c ∧ 0 ≤ reasoningTokens c.

Definition nonnegOp (op : StoreOp) : Prop :=
  match op with
  | OpRecord _ c => nonnegCall c
  | OpResetSession _ => True
  | OpImport _ => False
  end.

(** The sum of the [total] counters of a keyed map. *)
Definition sumTotals (m : gmap string Bucket) : Z :=
  map_fold (fun _ b acc => acc + total b) 0 m.

(** A bucket of the store never shrinks: the key is still there and its
    four counters are at least what they were. *)
Definition grown (before after : gmap string Bucket) : Prop :=
  ∀ k b, before !! k = Some b →
    ∃ b', after !! k = Some b'
          ∧ input b ≤ input b' ∧ output b ≤ output b'
          ∧ total b ≤ total b' ∧ messageCount b ≤ messageCount b'.



(** The four time dimensions agree with the all-time bucket. *)
Definition dimensions_agree (u : Usage) : Prop :=
  sumTotals (byDay u) = total (allTime u)
  ∧ sumTotals (byHour u) = total (allTime u)
  ∧ sumTotals (byWeek u) = total (allTime u)
  ∧ sumTotals (byMonth u) = total (allTime u).

(** Every keyed map of the store has grown. *)
Definition store_grown (u u' : Usage) : Prop :=
  grown (byDay u) (byDay u') ∧ grown (byHour u) (byHour u')
  ∧ grown (byWeek u) (byWeek u') ∧ grown (byMonth u) (byMonth u')
  ∧ grown (byChat u) (byChat u') ∧ grown (byModel u) (byModel u')
  ∧ grown (bySource u) (bySource u')
  ∧ total (allTime u) ≤ total (allTime u').

(** ** Calendar dates and their keys *)

(** The decimal digit character of [d] (for [0 <= d <= 9]). *)
Definition digitChar (d : Z) : ascii := pretty_N_char (Z.to_N d).

Definition twoDigits (n : Z) : string :=
  String (digitChar (n / 10)) (String (digitChar (n mod 10)) "").

Definition fourDigits (n : Z) : string :=
  String (digitChar (n / 1000))
    (String (digitChar (n / 100 mod 10))
       (String (digitChar (n / 10 mod 10))
          (String (digitChar (n mod 10)) ""))).

(** Calendar parts with a four-digit year. *)
Definition plainDate (p : EasternParts) : Prop :=
  1000 ≤ year p ≤ 9999 ∧ 1 ≤ month p ≤ 12 ∧ 1 ≤ day p ≤ 31 ∧ 0 ≤ hour p ≤ 23.

(** The chronological order of calendar days. *)
Definition dayLe (p q : EasternParts) : Prop :=
  year p < year q
  ∨ (year p = year q
     ∧ (month p < month q ∨ (month p = month q ∧ day p ≤ day q))).

(** The 0-based day of the year and the day number since 1970-01-01 of
    calendar parts, as [getWeekKey] derives them through [Date.UTC]. *)
Definition dayOfYear (p : EasternParts) : Z :=
  DaysBeforeMonth (year p) (month p - 1) + day p - 1.

Definition dayNumber (p : EasternParts) : Z := DayFromYear (year p) + dayOfYear p.

(** The index of the Sunday-to-Saturday week that holds day number [n]
    (week 0 holds 1970-01-01, a Thursday). *)
Definition sundayWeek (n : Z) : Z := (n + 4) / 7.

(** A store operation that is a [recordUsage] call with non-negative
    amounts at a calendar date with a four-digit year, or a session
    reset. *)
Definition plainOp (op : StoreOp) : Prop :=
  match op with
  | OpRecord now c => plainDate (getEasternParts now) ∧ nonnegCall c
  | OpResetSession _ => True
  | OpImport _ => False
  end.

(** [(m[k] || { total: 0 }).total] *)
Definition totalAt (m : gmap string Bucket) (k : string) : Z :=
  from_option total 0 (m !! k).

(** At every calendar date, the hour bucket is within the day bucket and
    the day bucket within the week and month buckets. *)
Definition periods_nested (u : Usage) : Prop :=
  ∀ date, plainDate (getEasternParts date) →
    totalAt (byHour u) (getHourKey date) ≤ totalAt (byDay u) (getDayKey date)
    ∧ totalAt (byDay u) (getDayKey date) ≤ totalAt (byWeek u) (getWeekKey date)
    ∧ totalAt (byDay u) (getDayKey date) ≤ totalAt (byMonth u) (getMonthKey date).

Definition nonneg_totals (m : gmap string Bucket) : Prop :=
  map_Forall (fun _ b => 0 ≤ total b) m.

(** ** Vocabulary for imports *)



(** ** Sequences of lifecycle handlers *)

(** The listeners that [patchGenerateQuietPrompt] registers on
    [GENERATION_STARTED] (with its [dryRun] argument) and on
    [CHAT_CHANGED] (no dry run): flush a pending quiet generation. *)
Definition quietFlushListener (h : Host) (dryRun : bool) (t : Tracker) : Tracker :=
  if dryRun then t
  else if isQuietGeneration t && bool_decide (is_Some (pendingInputTokensPromise t))
       then flushQuietGeneration h t
       else t.

(** One handler invocation (or the completion of a background baseline
    measurement). *)
Inductive Event :=
  | GenerationStarted (type : string) (isDryRun : bool)
  | GenerateAfterData (prompt : option Prompt) (dryRun : bool)
  | MessageReceived (messageIndex : nat) (type : string)
  | GenerationStopped
  | ChatChanged
  | ImpersonateReady (text : option string)
  | QuietFlush (dryRun : bool)
  | BaselineSettled.

(** The handler of an event, run against the host as it is then. *)
Definition handle (h : Host) (e : Event) (t : Tracker) : Tracker :=
  match e with
  | GenerationStarted type isDryRun => handleGenerationStarted h type isDryRun t
  | GenerateAfterData prompt dryRun => handleGenerateAfterData h prompt dryRun t
  | MessageReceived messageIndex type => handleMessageReceived h messageIndex type t
  | GenerationStopped => handleGenerationStopped h t
  | ChatChanged => handleChatChanged t
  | ImpersonateReady text => handleImpersonateReady h text t
  | QuietFlush dryRun => quietFlushListener h dryRun t
  | BaselineSettled => settleBaselineTask t
  end.

Definition handleAll (events : list (Host * Event)) (t : Tracker) : Tracker :=
  foldl (fun t he => handle he.1 he.2 t) t events.

(** The generations that a sequence starts: its [GENERATE_AFTER_DATA]
    events that are not dry runs. *)
Definition startsGeneration (he : Host * Event) : nat :=
  match he.2 with
  | GenerateAfterData _ false => 1
  | _ => 0
  end.

Definition generationsStarted (events : list (Host * Event)) : nat :=
  foldr Nat.add 0%nat (startsGeneration <$> events).

(** 1 when an input count is pending, 0 otherwise. *)
Definition inFlight (t : Tracker) : nat :=
  match pendingInputTokensPromise t with Some _ => 1 | None => 0 end.

(** The [recordUsage] calls of a handler sequence with the time of each. *)
Definition replay (timed : list (Date * RecordCall)) (s : Settings) : Settings :=
  runOps ((fun nc => OpRecord nc.1 nc.2) <$> timed) s.

(** ** Background calls: what is counted *)

(** The output count that the patched [sendRequest] takes from what the
    original function resolved to. *)
Definition responseTokens (h : Host) (res : Response) : Z :=
  match res with
  | ResponseObject (Some content) => countTokens h (Some content)
  | ResponseString s => countTokens h (Some s)
  | _ => 0
  end.

(** ** The active model and source *)

Module Api.

(** What [getCurrentModelId] and [getCurrentSourceId] read: [main_api],
    the outcome of [getChatCompletionModel()] (which may throw),
    [oai_settings?.custom_model], [oai_settings?.chat_completion_source]
    and [textgen_settings?.model]. *)
Record State := mkState {
  main_api : option string;
  getChatCompletionModel : result (option string);
  custom_model : option string;
  chat_completion_source : option string;
  textgen_model : option string }.

(** [a || b] on optional strings. *)
Definition or_else (a : option string) (b : string) : string :=
  default b (truthy a).

(** [getCurrentModelId()] *)
Definition getCurrentModelId (a : State) : string :=
  if decide (main_api a = Some "openai") then
    match getChatCompletionModel a with
    | Ok model => or_else model (or_else (custom_model a) "unknown-openai")
    | Throw _ => "unknown"
    end
  else if decide (main_api a = Some "textgenerationwebui") then
    or_else (textgen_model a) "unknown-textgen"
  else if decide (main_api a = Some "novel") then "novelai"
  else if decide (main_api a = Some "kobold") then "kobold"
  else or_else (main_api a) "unknown".

(** [getCurrentSourceId()] *)
Definition getCurrentSourceId (a : State) : string :=
  match (if decide (main_api a = Some "openai")
         then truthy (chat_completion_source a) else None) with
  | Some source => source
  | None => or_else (main_api a) "unknown"
  end.

End Api.

(** ** Cost figures *)

(** [!x] for a number: NaN and both zeros are falsy. *)
Definition falsy_number (x : float) : bool :=
  negb (PrimFloat.eqb x x) || PrimFloat.eqb x 0%float.

(** [calculateCost(inputTokens, outputTokens, modelId)] *)
Definition calculateCost (s : Settings) (inputTokens0 outputTokens0 : float)
    (modelId0 : string) : float :=
  let prices := getModelPrice s modelId0 in
  if falsy_number (price_in prices) && falsy_number (price_out prices) then 0%float
  else
    let inputCost := (inputTokens0 / 1000000 * price_in prices)%float in
    let outputCost := (outputTokens0 / 1000000 * price_out prices)%float in
    (inputCost + outputCost)%float.

(** An integer count as a double (exact below 2^53). *)
Definition number_of_Z (z : Z) : float :=
  if z <? 0 then (- PrimFloat.of_uint63 (Uint63.of_Z (- z)))%float
  else PrimFloat.of_uint63 (Uint63.of_Z z).

(** [calculateAllTimeCost()]; [entries] is [Object.entries(byModel)] in
    the order in which JavaScript enumerates it. *)
Definition calculateAllTimeCost (s : Settings) (entries : list (string * Bucket))
    : float :=
  foldl (fun totalCost entry =>
           (totalCost + calculateCost s (number_of_Z (input entry.2))
                                      (number_of_Z (output entry.2)) entry.1)%float)
        0%float entries.

(** A model for which [getModelPrice] gives two falsy prices (no entry,
    or an entry of zeros or NaN). *)
Definition unpriced (s : Settings) (modelId0 : string) : Prop :=
  falsy_number (price_in (getModelPrice s modelId0)) = true
  ∧ falsy_number (price_out (getModelPrice s modelId0)) = true.

(** A host function that returns [res] and leaves the tracker alone. *)
Definition returning (res : Response) : HostFn Response := fun t => (Ok res, t).

(** ** Nested breakdowns *)



(** * Properties *)

(** ** Lookups in the store's dictionaries *)

Lemma lookup_ensure {A} (k j : string) (init : A) (m : gmap string A) :
  ensure k init m !! j
    = if decide (k = j) then Some (default init (m !! k)) else m !! j.
Proof.
  unfold ensure. destruct (m !! k) as [x|] eqn:Hk.
  - case_decide; subst; simpl; auto.
  - rewrite lookup_insert. case_decide; reflexivity.
Qed.

Lemma lookup_recordKeyed (c : RecordCall) (k j : string) (m : gmap string Bucket) :
  recordKeyed c k m !! j
    = if decide (k = j) then Some (addTokens c (default emptyBucket (m !! k)))
      else m !! j.
Proof.
  unfold recordKeyed. rewrite lookup_alter, !lookup_ensure.
  case_decide; [|reflexivity].
  rewrite decide_True by reflexivity. reflexivity.
Qed.

Lemma lookup_recordDay (c : RecordCall) (k j : string) (m : gmap string Bucket) :
  recordDay c k m !! j
    = if decide (k = j) then Some (dayBucketAfter c (default newDayBucket (m !! k)))
      else m !! j.
Proof.
  unfold recordDay, dayBucketAfter.
  destruct (truthy (modelId c)), (truthy (sourceId c));
    rewrite ?lookup_alter, ?lookup_ensure;
    case_decide; try reflexivity;
    rewrite ?decide_True by reflexivity; reflexivity.
Qed.

Lemma lookup_recordHour (c : RecordCall) (k j : string) (m : gmap string Bucket) :
  recordHour c k m !! j
    = if decide (k = j) then Some (hourBucketAfter c (default newHourBucket (m !! k)))
      else m !! j.
Proof.
  unfold recordHour, hourBucketAfter.
  destruct (truthy (modelId c)), (truthy (sourceId c));
    rewrite ?lookup_alter, ?lookup_ensure;
    case_decide; try reflexivity;
    rewrite ?decide_True by reflexivity; reflexivity.
Qed.


(** ** The total invariant under [recordUsage] and the resets *)

Lemma addTokens_ok (c : RecordCall) (b : Bucket) :
  bucket_ok b → bucket_ok (addTokens c b).
Proof.
  unfold bucket_ok, addTokens, totalTokens; simpl. lia.
Qed.

Lemma dayBucketAfter_ok (c : RecordCall) (b : Bucket) :
  bucket_ok b → bucket_ok (dayBucketAfter c b).
Proof.
  intros H. apply (addTokens_ok c) in H. unfold dayBucketAfter.
  destruct (truthy (modelId c)), (truthy (sourceId c)); exact H.
Qed.

Lemma hourBucketAfter_ok (c : RecordCall) (b : Bucket) :
  bucket_ok b → bucket_ok (hourBucketAfter c b).
Proof.
  intros H. apply (addTokens_ok c) in H. unfold hourBucketAfter.
  destruct (truthy (modelId c)), (truthy (sourceId c)); exact H.
Qed.

Lemma emptyBucket_ok : bucket_ok emptyBucket.
Proof. reflexivity. Qed.

Lemma newDayBucket_ok : bucket_ok newDayBucket.
Proof. reflexivity. Qed.

Lemma newHourBucket_ok : bucket_ok newHourBucket.
Proof. reflexivity. Qed.

Lemma default_ok (init : Bucket) (k : string) (m : gmap string Bucket) :
  bucket_ok init → map_Forall (fun _ b => bucket_ok b) m →
  bucket_ok (default init (m !! k)).
Proof.
  intros Hi Hm. destruct (m !! k) as [b|] eqn:Hk; simpl; [|exact Hi].
  exact (Hm k b Hk).
Qed.

Create HintDb store.

#[local] Hint Resolve addTokens_ok dayBucketAfter_ok hourBucketAfter_ok
  emptyBucket_ok newDayBucket_ok newHourBucket_ok default_ok : store.

Lemma recordKeyed_ok c k m :
  map_Forall (fun _ b => bucket_ok b) m →
  map_Forall (fun _ b => bucket_ok b) (recordKeyed c k m).
Proof.
  intros Hm j b. rewrite lookup_recordKeyed. case_decide.
  - intros [= <-]. auto with store.
  - apply Hm.
Qed.

Lemma recordIdentity_ok c id m :
  map_Forall (fun _ b => bucket_ok b) m →
  map_Forall (fun _ b => bucket_ok b) (recordIdentity c id m).
Proof.
  unfold recordIdentity. destruct (truthy id); [apply recordKeyed_ok|auto].
Qed.

Lemma recordDay_ok c k m :
  map_Forall (fun _ b => bucket_ok b) m →
  map_Forall (fun _ b => bucket_ok b) (recordDay c k m).
Proof.
  intros Hm j b. rewrite lookup_recordDay. case_decide.
  - intros [= <-]. auto with store.
  - apply Hm.
Qed.

Lemma recordHour_ok c k m :
  map_Forall (fun _ b => bucket_ok b) m →
  map_Forall (fun _ b => bucket_ok b) (recordHour c k m).
Proof.
  intros Hm j b. rewrite lookup_recordHour. case_decide.
  - intros [= <-]. auto with store.
  - apply Hm.
Qed.

(** Every [recordUsage] call keeps [total == input + output + reasoning]
    in every bucket of the store. *)
Lemma recordUsage_store_ok (now : Date) (c : RecordCall) (s : Settings) :
  store_ok (usage s) → store_ok (usage (recordUsage now c s)).
Proof.
  unfold store_ok; simpl.
  intros (Hs & Ha & Hd & Hh & Hw & Hm & Hc & Hmo & Hso).
  repeat split;
    auto using recordKeyed_ok, recordIdentity_ok, recordDay_ok, recordHour_ok
      with store.
Qed.

Lemma resetAllUsage_store_ok (now : Date) (s : Settings) :
  store_ok (usage (resetAllUsage now s)).
Proof.
  unfold store_ok; simpl. repeat split; try reflexivity; apply map_Forall_empty.
Qed.

Lemma resetSession_store_ok (now : Date) (s : Settings) :
  store_ok (usage s) → store_ok (usage (resetSession now s)).
Proof.
  unfold store_ok; simpl. intros (Hs & H). split; [reflexivity|exact H].
Qed.

Lemma storeA_ok : store_ok (usage storeA).
Proof. apply recordUsage_store_ok, resetAllUsage_store_ok. Qed.

(** C3: [storeA] satisfies the invariant, and after it has imported its
    own export file its day bucket "2024-12-31" holds input 2, output 2,
    reasoning 1 and total 6: the merge of an existing key adds [total]
    and leaves [reasoning] as it was. *)
Theorem import_breaks_total_invariant :
  store_ok (usage storeA)
  ∧ byDay (usage (reimport dec31_2024 storeA)) !! "2024-12-31"
      = Some (mkBucket 2 2 (Some 1) 6 2 (Some ∅) (Some ∅) None)
  ∧ ¬ store_ok (usage (reimport dec31_2024 storeA)).
Proof.
  assert (Hday : byDay (usage (reimport dec31_2024 storeA)) !! "2024-12-31"
                 = Some (mkBucket 2 2 (Some 1) 6 2 (Some ∅) (Some ∅) None))
    by (vm_compute; reflexivity).
  split; [exact storeA_ok|]. split; [exact Hday|].
  intros (_ & _ & Hd & _).
  specialize (Hd _ _ Hday). unfold bucket_ok in Hd; simpl in Hd. lia.
Qed.

(** ** Bucket keys *)

(** C2: on the calendar date 31 December 2024 [getWeekKey] produces
    "2024-W53" (day 365 of the year, plus the weekday 1 of 1 January,
    plus 1, over 7, rounded up), where the ISO-8601 week of that date is
    "2025-W01". *)
Theorem getWeekKey_dec31_2024 :
  getWeekKey dec31_2024 = "2024-W53" ∧ isoWeekKey dec31_2024 = "2025-W01".
Proof. split; vm_compute; reflexivity. Qed.

(** ** Price resolution *)





(** ** What an import changes *)

Lemma importUsageData_Ok (parsed : option ExportData) (s s' : Settings) (msg : string) :
  importUsageData parsed s = Ok (s', msg) →
  ∃ data xu,
    parsed = Some data ∧ x_usage data = Some xu
    ∧ modelColors s' = Object_assign (modelColors s) (x_modelColors data)
    ∧ modelPrices s' = Object_assign (modelPrices s) (x_modelPrices data)
    ∧ usage s' = {| session := session (usage s);
                    allTime := allTime (usage s);
                    byDay := mergeKeyed (x_byDay xu) (byDay (usage s));
                    byHour := mergeKeyed (x_byHour xu) (byHour (usage s));
                    byWeek := byWeek (usage s); byMonth := byMonth (usage s);
                    byChat := byChat (usage s); byModel := byModel (usage s);
                    bySource := bySource (usage s) |}.
Proof.
  unfold importUsageData. destruct parsed as [data|]; [|discriminate].
  destruct (truthy (x_version data)); [|discriminate].
  destruct (x_usage data) as [xu|] eqn:Hxu; [|discriminate].
  destruct (truthy (x_extensionName data)) as [n|].
  - case_decide; [|discriminate]. intros [= <- _]. exists data, xu.
    simpl. repeat split; auto.
  - intros [= <- _]. exists data, xu. simpl. repeat split; auto.
Qed.

Lemma runOp_import_allTime (parsed : option ExportData) (s : Settings) :
  allTime (usage (runOp (OpImport parsed) s)) = allTime (usage s).
Proof.
  simpl. destruct (importUsageData parsed s) as [[s' msg]|] eqn:H; [|reflexivity].
  apply importUsageData_Ok in H as (data & xu & _ & _ & _ & _ & ->). reflexivity.
Qed.

(** ** The all-time total *)

Lemma sumZ_cons (x : Z) (l : list Z) : sumZ (x :: l) = x + sumZ l.
Proof. reflexivity. Qed.

Lemma runOp_allTime_total (op : StoreOp) (s : Settings) :
  total (allTime (usage (runOp op s)))
    = total (allTime (usage s)) + recordedTotal op.
Proof.
  destruct op as [now c|now|parsed].
  - reflexivity.
  - unfold runOp, resetSession, set_usage, recordedTotal. simpl. lia.
  - rewrite runOp_import_allTime. unfold recordedTotal. lia.
Qed.

Lemma runOps_allTime_total (ops : list StoreOp) (s : Settings) :
  total (allTime (usage (runOps ops s)))
    = total (allTime (usage s)) + sumZ (recordedTotal <$> ops).
Proof.
  unfold runOps. revert s. induction ops as [|op ops IH]; intros s.
  - simpl. lia.
  - rewrite fmap_cons, sumZ_cons. cbn [foldl].
    rewrite IH, runOp_allTime_total. lia.
Qed.

(** C8: after [resetAllUsage] (and likewise from the default settings of
    a first start) and any sequence of [recordUsage] calls, session
    resets and imports, [allTime.total] is the sum of the totals
    [input + output + reasoning] of the [recordUsage] calls; and
    [resetAllUsage] leaves every counter at zero and every keyed map
    empty. *)
Theorem allTime_total_is_sum (ops : list StoreOp) (now : Date) (s : Settings) :
  total (allTime (usage (runOps ops (resetAllUsage now s))))
    = sumZ (recordedTotal <$> ops)
  ∧ total (allTime (usage (runOps ops defaultSettings)))
    = sumZ (recordedTotal <$> ops)
  ∧ usage (resetAllUsage now s)
    = {| session := mkBucket 0 0 (Some 0) 0 0 None None (Some (toISOString now));
         allTime := mkBucket 0 0 (Some 0) 0 0 None None None;
         byDay := ∅; byHour := ∅; byWeek := ∅; byMonth := ∅;
         byChat := ∅; byModel := ∅; bySource := ∅ |}.
Proof.
  rewrite !runOps_allTime_total. simpl. repeat split; lia.
Qed.

(** ** Session reset *)

(** C5: [resetSession] replaces the session bucket by the literal
    [{ input: 0, output: 0, total: 0, messageCount: 0, startTime }]: its
    four counters are zero and its start time is the current time, but
    it has no [reasoning] property (where the session of
    [resetAllUsage] has [reasoning: 0]); every other aggregate is
    unchanged. *)
Theorem resetSession_session_bucket (now : Date) (s : Settings) :
  let u := usage s in
  let u' := usage (resetSession now s) in
  session u' = mkBucket 0 0 None 0 0 None None (Some (toISOString now))
  ∧ reasoning (session u') ≠ Some 0
  ∧ reasoning (session (usage (resetAllUsage now s))) = Some 0
  ∧ allTime u' = allTime u ∧ byDay u' = byDay u ∧ byHour u' = byHour u
  ∧ byWeek u' = byWeek u ∧ byMonth u' = byMonth u ∧ byChat u' = byChat u
  ∧ byModel u' = byModel u ∧ bySource u' = bySource u
  ∧ modelPrices (resetSession now s) = modelPrices s
  ∧ modelColors (resetSession now s) = modelColors s.
Proof.
  simpl. repeat split; try reflexivity. discriminate.
Qed.

(** ** Calls without a chat, model or source id *)

Lemma addTokens_counted (c : RecordCall) (b : Bucket) : counted c b (addTokens c b).
Proof. unfold counted; simpl. repeat split; reflexivity. Qed.

Lemma dayBucketAfter_counted (c : RecordCall) (b : Bucket) :
  counted c b (dayBucketAfter c b).
Proof.
  unfold dayBucketAfter.
  destruct (truthy (modelId c)), (truthy (sourceId c)); apply addTokens_counted.
Qed.

Lemma hourBucketAfter_counted (c : RecordCall) (b : Bucket) :
  counted c b (hourBucketAfter c b).
Proof.
  unfold hourBucketAfter.
  destruct (truthy (modelId c)), (truthy (sourceId c)); apply addTokens_counted.
Qed.

Lemma recordIdentity_falsy (c : RecordCall) (id : option string) (m : gmap string Bucket) :
  truthy id = None → recordIdentity c id m = m.
Proof. unfold recordIdentity. intros ->. reflexivity. Qed.

Lemma dayBucketAfter_models (c : RecordCall) (b : Bucket) :
  truthy (modelId c) = None → models (dayBucketAfter c b) = models b.
Proof.
  unfold dayBucketAfter. intros ->. destruct (truthy (sourceId c)); reflexivity.
Qed.

Lemma hourBucketAfter_models (c : RecordCall) (b : Bucket) :
  truthy (modelId c) = None → models (hourBucketAfter c b) = models b.
Proof.
  unfold hourBucketAfter. intros ->. destruct (truthy (sourceId c)); reflexivity.
Qed.

Lemma dayBucketAfter_sources (c : RecordCall) (b : Bucket) :
  truthy (sourceId c) = None → sources (dayBucketAfter c b) = sources b.
Proof.
  unfold dayBucketAfter. intros ->. destruct (truthy (modelId c)); reflexivity.
Qed.

Lemma hourBucketAfter_sources (c : RecordCall) (b : Bucket) :
  truthy (sourceId c) = None → sources (hourBucketAfter c b) = sources b.
Proof.
  unfold hourBucketAfter. intros ->. destruct (truthy (modelId c)); reflexivity.
Qed.

(** Without a model id, the per-model breakdown inside every per-source
    entry of a day bucket stays as it was. *)
Lemma dayBucketAfter_sourceModels (c : RecordCall) (b : Bucket) (src : string) :
  truthy (modelId c) = None →
  sourceModels newDaySource (dayBucketAfter c b) src = sourceModels newDaySource b src.
Proof.
  unfold dayBucketAfter, sourceModels. intros Hm. rewrite Hm.
  destruct (truthy (sourceId c)) as [src0|]; [|reflexivity]. simpl.
  rewrite lookup_alter, !lookup_ensure.
  destruct (decide (src0 = src)) as [->|Hne]; [|reflexivity].
  rewrite decide_True by reflexivity. simpl.
  unfold addDaySource. rewrite Hm. simpl.
  destruct (default ∅ (sources b) !! src); reflexivity.
Qed.

(** C10: a [recordUsage] call whose chat id is null (or empty) leaves
    [byChat] unchanged; one whose model id is null leaves [byModel] and
    the per-model breakdowns of every day bucket, hour bucket and
    per-source entry unchanged; one whose source id is null leaves
    [bySource] and the per-source breakdowns unchanged.  In every case
    the session, all-time, day, hour, week and month buckets receive the
    call's amounts; and [flushQuietGeneration] never touches [byChat]. *)
Theorem recordUsage_null_identities (now : Date) (c : RecordCall) (s : Settings) :
  let u := usage s in
  let u' := usage (recordUsage now c s) in
  (truthy (chatId c) = None → byChat u' = byChat u)
  ∧ (truthy (modelId c) = None →
     byModel u' = byModel u
     ∧ (∀ k b', byDay u' !! k = Some b' →
          let b := default newDayBucket (byDay u !! k) in
          models b' = models b
          ∧ ∀ src, sourceModels newDaySource b' src = sourceModels newDaySource b src)
     ∧ (∀ k b', byHour u' !! k = Some b' →
          models b' = models (default newHourBucket (byHour u !! k))))
  ∧ (truthy (sourceId c) = None →
     bySource u' = bySource u
     ∧ (∀ k b', byDay u' !! k = Some b' →
          sources b' = sources (default newDayBucket (byDay u !! k)))
     ∧ (∀ k b', byHour u' !! k = Some b' →
          sources b' = sources (default newHourBucket (byHour u !! k))))
  ∧ session u' = addTokens c (session u)
  ∧ allTime u' = addTokens c (allTime u)
  ∧ (∃ b', byDay u' !! getDayKey now = Some b'
           ∧ counted c (default newDayBucket (byDay u !! getDayKey now)) b')
  ∧ (∃ b', byHour u' !! getHourKey now = Some b'
           ∧ counted c (default newHourBucket (byHour u !! getHourKey now)) b')
  ∧ byWeek u' !! getWeekKey now
      = Some (addTokens c (default emptyBucket (byWeek u !! getWeekKey now)))
  ∧ byMonth u' !! getMonthKey now
      = Some (addTokens c (default emptyBucket (byMonth u !! getMonthKey now)))
  ∧ (∀ h t, byChat (usage (settings (flushQuietGeneration h t)))
            = byChat (usage (settings t))).
Proof.
  cbn zeta. unfold recordUsage; simpl.
  split; [apply recordIdentity_falsy|].
  split.
  { intros Hm. split; [apply recordIdentity_falsy, Hm|]. split.
    - intros k b'. rewrite lookup_recordDay. case_decide as Hk.
      + subst k. intros [= <-].
        split; [apply dayBucketAfter_models, Hm|].
        intros src. apply dayBucketAfter_sourceModels, Hm.
      + intros ->. split; reflexivity.
    - intros k b'. rewrite lookup_recordHour. case_decide as Hk.
      + subst k. intros [= <-]. apply hourBucketAfter_models, Hm.
      + intros ->. reflexivity. }
  split.
  { intros Hs. split; [apply recordIdentity_falsy, Hs|]. split.
    - intros k b'. rewrite lookup_recordDay. case_decide as Hk.
      + subst k. intros [= <-]. apply dayBucketAfter_sources, Hs.
      + intros ->. reflexivity.
    - intros k b'. rewrite lookup_recordHour. case_decide as Hk.
      + subst k. intros [= <-]. apply hourBucketAfter_sources, Hs.
      + intros ->. reflexivity. }
  split; [reflexivity|]. split; [reflexivity|].
  split.
  { eexists. rewrite lookup_recordDay, decide_True by reflexivity.
    split; [reflexivity|apply dayBucketAfter_counted]. }
  split.
  { eexists. rewrite lookup_recordHour, decide_True by reflexivity.
    split; [reflexivity|apply hourBucketAfter_counted]. }
  split; [rewrite lookup_recordKeyed, decide_True by reflexivity; reflexivity|].
  split; [rewrite lookup_recordKeyed, decide_True by reflexivity; reflexivity|].
  intros h t. unfold flushQuietGeneration.
  destruct (pendingInputTokensPromise t) as [inputTokens|]; [|reflexivity].
  simpl. case_match; reflexivity.
Qed.

Lemma recordUsage_null_identities_witness :
  byChat (usage (recordUsage dec31_2024 anonymousCall storeA)) = byChat (usage storeA)
  ∧ byModel (usage (recordUsage dec31_2024 anonymousCall storeA)) = byModel (usage storeA)
  ∧ bySource (usage (recordUsage dec31_2024 anonymousCall storeA)) = bySource (usage storeA).
Proof.
  destruct (recordUsage_null_identities dec31_2024 anonymousCall storeA)
    as (Hc & Hm & Hs & _).
  split; [apply Hc; reflexivity|].
  split; [apply Hm; reflexivity|apply Hs; reflexivity].
Defined.

(** ** The import merge *)











(** ** Finalization of a generation *)

Lemma countTokens_nonneg (h : Host) (text : option string) :
  (∀ s, 0 ≤ tokenCount h s) → 0 ≤ countTokens h text.
Proof.
  intros Hh. unfold countTokens. destruct (truthy text); [apply Hh|lia].
Qed.







(** A chat change abandons the generation in flight: the finalizing
    handlers that follow record nothing. *)
Lemma handleChatChanged_abandons (h : Host) (t : Tracker) (messageIndex : nat)
    (type : string) (text : option string) :
  let t' := handleChatChanged t in
  pendingInputTokensPromise t' = None
  ∧ recorded t' = recorded t
  ∧ handleGenerationStopped h t' = t'
  ∧ handleMessageReceived h messageIndex type t' = t'
  ∧ handleImpersonateReady h text t' = t'.
Proof.
  cbn zeta. repeat split; try reflexivity.
  unfold handleMessageReceived. case_decide; reflexivity.
Qed.

(** ** The background-generation guard *)

Lemma handleBackgroundGeneration_guarded {R} (h : Host) (originalFn : HostFn R)
    (inputCounter : unit → result Z) (outputCounter : R → result Z) (t : Tracker) :
  isTrackingBackground t = true →
  handleBackgroundGeneration h originalFn inputCounter outputCounter t = originalFn t.
Proof. unfold handleBackgroundGeneration. intros ->. reflexivity. Qed.

Lemma sendRequest_guarded (h : Host) (originalSendRequest : HostFn Response)
    (messages : list PromptMessage) (t : Tracker) :
  isTrackingBackground t = true →
  sendRequest h originalSendRequest messages t = originalSendRequest t.
Proof. unfold sendRequest. intros ->. reflexivity. Qed.

Lemma handleBackgroundGeneration_released {R} (h : Host) (originalFn : HostFn R)
    (inputCounter : unit → result Z) (outputCounter : R → result Z) (t : Tracker) :
  isTrackingBackground t = false →
  isTrackingBackground (handleBackgroundGeneration h originalFn inputCounter outputCounter t).2
    = false.
Proof.
  unfold handleBackgroundGeneration. intros ->.
  destruct (originalFn (set_tracking true t)) as [[res|e] t2]; reflexivity.
Qed.

Lemma sendRequest_released (h : Host) (originalSendRequest : HostFn Response)
    (messages : list PromptMessage) (t : Tracker) :
  isTrackingBackground t = false →
  isTrackingBackground (sendRequest h originalSendRequest messages t).2 = false.
Proof.
  unfold sendRequest. intros ->.
  destruct (originalSendRequest (set_tracking true t)) as [[res|e] t2]; reflexivity.
Qed.

(** C9: an instrumented background call that starts with the guard
    clear ends with the guard clear, whether the original function
    returns (then at most one usage record is added to what the original
    function left) or throws (then the exception is passed on); and a
    call that starts with the guard set is the original function itself,
    so that an instrumented call nested in another adds no record of its
    own.  This holds for [handleBackgroundGeneration] and for the
    patched [sendRequest]. *)
Theorem background_guard (h : Host) (originalFn : HostFn Response)
    (inputCounter : unit → result Z) (outputCounter : Response → result Z)
    (messages : list PromptMessage) (t : Tracker) :
  let wrapped := handleBackgroundGeneration h originalFn inputCounter outputCounter in
  let patched := sendRequest h originalFn messages in
  (isTrackingBackground t = false →
     isTrackingBackground (wrapped t).2 = false
     ∧ isTrackingBackground (patched t).2 = false
     ∧ (∀ e t2, originalFn (set_tracking true t) = (Throw e, t2) →
          wrapped t = (Throw e, set_tracking false t2)
          ∧ patched t = (Throw e, set_tracking false t2))
     ∧ (∀ res t2, originalFn (set_tracking true t) = (Ok res, t2) →
          ∃ t3 t4, wrapped t = (Ok res, set_tracking false t3)
                   ∧ patched t = (Ok res, set_tracking false t4)
                   ∧ (recorded t3 = recorded t2
                      ∨ ∃ c, recorded t3 = (recorded t2 ++ [c])%list)
                   ∧ (recorded t4 = recorded t2
                      ∨ ∃ c, recorded t4 = (recorded t2 ++ [c])%list))
     ∧ (∀ h' inputCounter' outputCounter' messages',
          handleBackgroundGeneration h
            (handleBackgroundGeneration h' originalFn inputCounter' outputCounter')
            inputCounter outputCounter t = wrapped t
          ∧ sendRequest h (sendRequest h' originalFn messages') messages t = patched t
          ∧ sendRequest h
              (handleBackgroundGeneration h' originalFn inputCounter' outputCounter')
              messages t = patched t))
  ∧ (isTrackingBackground t = true →
     wrapped t = originalFn t ∧ patched t = originalFn t).
Proof.
  cbn zeta. split.
  - intros Hf.
    split; [apply handleBackgroundGeneration_released, Hf|].
    split; [apply sendRequest_released, Hf|].
    split; [|split].
    + intros e t2 Ho. unfold handleBackgroundGeneration, sendRequest.
      rewrite Hf, Ho. split; reflexivity.
    + intros res t2 Ho. unfold handleBackgroundGeneration, sendRequest.
      rewrite Hf, Ho. eexists _, _.
      split; [reflexivity|]. split; [reflexivity|]. split.
      * destruct (outputCounter res) as [outputTokens|]; [|left; reflexivity].
        destruct (_ || _); [right; eexists; reflexivity|left; reflexivity].
      * destruct (_ || _); [right; eexists; reflexivity|left; reflexivity].
    + intros h' ic' oc' messages'.
      unfold handleBackgroundGeneration, sendRequest. rewrite Hf. simpl.
      repeat split; reflexivity.
  - intros Ht.
    split; [apply handleBackgroundGeneration_guarded, Ht|apply sendRequest_guarded, Ht].
Qed.

Lemma background_guard_witness :
  isTrackingBackground
    (sendRequest (charHost [] None) failing [] (initialTracker defaultSettings)).2 = false
  ∧ isTrackingBackground
      (sendRequest (charHost [] None) answering [] (initialTracker defaultSettings)).2 = false
  ∧ sendRequest (charHost [] None) answering []
      (set_tracking true (initialTracker defaultSettings))
    = answering (set_tracking true (initialTracker defaultSettings)).
Proof.
  split; [|split].
  - destruct (background_guard (charHost [] None) failing (fun _ => Ok 0)
                (fun _ => Ok 0) [] (initialTracker defaultSettings)) as [H _].
    destruct (H eq_refl) as (_ & Hp & _). exact Hp.
  - destruct (background_guard (charHost [] None) answering (fun _ => Ok 0)
                (fun _ => Ok 0) [] (initialTracker defaultSettings)) as [H _].
    destruct (H eq_refl) as (_ & Hp & _). exact Hp.
  - destruct (background_guard (charHost [] None) answering (fun _ => Ok 0)
                (fun _ => Ok 0) []
                (set_tracking true (initialTracker defaultSettings))) as [_ H].
    destruct (H eq_refl) as (_ & Hp). exact Hp.
Defined.

(** ** The continue baseline measured in the background *)

(** When the last message has no token count of its own,
    [handleGenerationStarted] starts a measurement that it does not wait
    for; if the message is received before the measurement completes,
    the whole message is recorded as output, and once it has completed,
    only the difference is. *)
Lemma continue_baseline_unsettled :
  let before := charHost [mkMessage (Some "Once") None None] None in
  let after := charHost [mkMessage (Some "Once upon") None None] None in
  let started :=
    handleGenerateAfterData before (Some (PromptString "Hello")) false
      (handleGenerationStarted before "continue" false (initialTracker defaultSettings)) in
  outputTokens <$> recorded (handleMessageReceived after 0%nat "continue" started) = [9]
  ∧ outputTokens
      <$> recorded (handleMessageReceived after 0%nat "continue" (settleBaselineTask started))
    = [5].
Proof. split; reflexivity. Qed.

(** * Further properties of the store *)

Lemma Forall_runOps_ind (P : Settings → Prop) (Q : StoreOp → Prop)
    (ops : list StoreOp) (s : Settings) :
  (∀ op s, Q op → P s → P (runOp op s)) →
  Forall Q ops → P s → P (runOps ops s).
Proof.
  intros Hstep Hops. unfold runOps. revert s.
  induction Hops as [|op ops Hop _ IH]; intros s Hs; simpl; [exact Hs|].
  apply IH, Hstep; assumption.
Qed.

(** X1: From a full reset, every sequence of [recordUsage] calls and session
    resets (no import) leaves [total == input + output + reasoning] in
    the session, the all-time bucket and every bucket of the seven keyed
    maps. *)
Theorem records_keep_total_invariant (ops : list StoreOp) (now : Date) (s : Settings) :
  Forall (fun op => isImport op = false) ops →
  store_ok (usage (runOps ops (resetAllUsage now s))).
Proof.
  intros Hops.
  eapply (Forall_runOps_ind (fun s => store_ok (usage s)));
    [|exact Hops|apply resetAllUsage_store_ok].
  intros [now' c|now'|parsed] s' Hq Hs'; simpl.
  - apply recordUsage_store_ok, Hs'.
  - apply resetSession_store_ok, Hs'.
  - discriminate.
Qed.

Lemma records_keep_total_invariant_witness :
  store_ok (usage (runOps [OpRecord dec31_2024 oneExchange; OpResetSession dec31_2024;
                           OpRecord dec31_2024 anonymousCall]
                          (resetAllUsage dec31_2024 defaultSettings))).
Proof.
  apply records_keep_total_invariant.
  repeat constructor.
Defined.

(** ** The session since its last reset *)

Lemma runOp_session_counts (op : StoreOp) (s : Settings) :
  isResetSession op = false →
  total (session (usage (runOp op s))) = total (session (usage s)) + recordedTotal op
  ∧ messageCount (session (usage (runOp op s)))
    = messageCount (session (usage s)) + recordedCount op
  ∧ startTime (session (usage (runOp op s))) = startTime (session (usage s)).
Proof.
  destruct op as [now c|now|parsed]; intros Hop; [| discriminate |].
  - simpl. auto.
  - simpl. destruct (importUsageData parsed s) as [[s' msg]|] eqn:H.
    + apply importUsageData_Ok in H as (data & xu & _ & _ & _ & _ & ->).
      simpl. repeat split; lia.
    + repeat split; lia.
Qed.

Lemma runOps_session_counts (ops : list StoreOp) (s : Settings) :
  Forall (fun op => isResetSession op = false) ops →
  total (session (usage (runOps ops s)))
    = total (session (usage s)) + sumZ (recordedTotal <$> ops)
  ∧ messageCount (session (usage (runOps ops s)))
    = messageCount (session (usage s)) + sumZ (recordedCount <$> ops)
  ∧ startTime (session (usage (runOps ops s))) = startTime (session (usage s)).
Proof.
  intros Hops. unfold runOps. revert s.
  induction Hops as [|op ops Hop _ IH]; intros s.
  - simpl. repeat split; lia.
  - rewrite !fmap_cons, !sumZ_cons. cbn [foldl].
    destruct (IH (runOp op s)) as (-> & -> & ->).
    destruct (runOp_session_counts op s Hop) as (-> & -> & ->).
    repeat split; lia.
Qed.

(** X2: After [resetSession] and any sequence of [recordUsage] calls and
    imports, the session's [total] is the sum of the calls' totals, its
    [messageCount] is the number of calls, and its [startTime] is still
    the time of the reset. *)
Theorem session_counts_since_reset (ops : list StoreOp) (now : Date) (s : Settings) :
  Forall (fun op => isResetSession op = false) ops →
  let u := usage (runOps ops (resetSession now s)) in
  total (session u) = sumZ (recordedTotal <$> ops)
  ∧ messageCount (session u) = sumZ (recordedCount <$> ops)
  ∧ startTime (session u) = Some (toISOString now).
Proof.
  intros Hops. cbn zeta.
  destruct (runOps_session_counts ops (resetSession now s) Hops) as (-> & -> & ->).
  simpl. repeat split; lia.
Qed.

Lemma session_counts_since_reset_witness :
  total (session (usage (runOps [OpRecord dec31_2024 oneExchange;
                                 OpRecord dec31_2024 anonymousCall]
                                (resetSession dec31_2024 storeA)))) = 348.
Proof.
  destruct (session_counts_since_reset
              [OpRecord dec31_2024 oneExchange; OpRecord dec31_2024 anonymousCall]
              dec31_2024 storeA) as (H & _).
  - repeat constructor.
  - exact H.
Defined.

(** ** The time dimensions add up to the all-time total *)

Lemma sumTotals_insert_fresh (m : gmap string Bucket) (k : string) (b : Bucket) :
  m !! k = None → sumTotals (<[k:=b]> m) = sumTotals m + total b.
Proof.
  intros Hk. unfold sumTotals.
  rewrite map_fold_insert_L; [reflexivity| |exact Hk].
  intros. lia.
Qed.

Lemma sumTotals_upsert (m : gmap string Bucket) (k : string) (b' : Bucket) :
  sumTotals (<[k:=b']> m) = sumTotals m + total b' - from_option total 0 (m !! k).
Proof.
  destruct (m !! k) as [b|] eqn:Hk; simpl.
  - rewrite <- (insert_delete_eq m k b') .
    rewrite <- (insert_delete_id m k b Hk) at 2.
    rewrite !sumTotals_insert_fresh by apply lookup_delete_eq. lia.
  - rewrite sumTotals_insert_fresh by exact Hk. lia.
Qed.

Lemma recordKeyed_insert (c : RecordCall) (k : string) (m : gmap string Bucket) :
  recordKeyed c k m = <[k := addTokens c (default emptyBucket (m !! k))]> m.
Proof.
  apply map_eq. intros j. rewrite lookup_recordKeyed, lookup_insert. reflexivity.
Qed.

Lemma recordDay_insert (c : RecordCall) (k : string) (m : gmap string Bucket) :
  recordDay c k m = <[k := dayBucketAfter c (default newDayBucket (m !! k))]> m.
Proof.
  apply map_eq. intros j. rewrite lookup_recordDay, lookup_insert. reflexivity.
Qed.

Lemma recordHour_insert (c : RecordCall) (k : string) (m : gmap string Bucket) :
  recordHour c k m = <[k := hourBucketAfter c (default newHourBucket (m !! k))]> m.
Proof.
  apply map_eq. intros j. rewrite lookup_recordHour, lookup_insert. reflexivity.
Qed.

Lemma sumTotals_recordKeyed (c : RecordCall) (k : string) (m : gmap string Bucket) :
  sumTotals (recordKeyed c k m) = sumTotals m + totalTokens c.
Proof.
  rewrite recordKeyed_insert, sumTotals_upsert.
  destruct (m !! k); simpl; lia.
Qed.

Lemma sumTotals_recordDay (c : RecordCall) (k : string) (m : gmap string Bucket) :
  sumTotals (recordDay c k m) = sumTotals m + totalTokens c.
Proof.
  rewrite recordDay_insert, sumTotals_upsert.
  destruct (dayBucketAfter_counted c (default newDayBucket (m !! k)))
    as (_ & _ & _ & -> & _).
  destruct (m !! k); simpl; lia.
Qed.

Lemma sumTotals_recordHour (c : RecordCall) (k : string) (m : gmap string Bucket) :
  sumTotals (recordHour c k m) = sumTotals m + totalTokens c.
Proof.
  rewrite recordHour_insert, sumTotals_upsert.
  destruct (hourBucketAfter_counted c (default newHourBucket (m !! k)))
    as (_ & _ & _ & -> & _).
  destruct (m !! k); simpl; lia.
Qed.

Lemma dimensions_agree_preserved (ops : list StoreOp) (s : Settings) :
  Forall (fun op => isImport op = false) ops →
  dimensions_agree (usage s) → dimensions_agree (usage (runOps ops s)).
Proof.
  intros Hops Hs.
  eapply (Forall_runOps_ind (fun s => dimensions_agree (usage s)));
    [|exact Hops|exact Hs].
  intros [now' c|now'|parsed] s' Hq (Hd & Hh & Hw & Hm); [| |discriminate].
  - unfold dimensions_agree; simpl.
    rewrite sumTotals_recordDay, sumTotals_recordHour, !sumTotals_recordKeyed.
    repeat split; lia.
  - unfold dimensions_agree; simpl. auto.
Qed.

(** X3: From a full reset, every sequence of [recordUsage] calls and session
    resets (no import) keeps the totals of the day buckets, of the hour
    buckets, of the week buckets and of the month buckets each summing to
    [allTime.total]. *)
Theorem time_dimensions_sum_to_allTime (ops : list StoreOp) (now : Date) (s : Settings) :
  Forall (fun op => isImport op = false) ops →
  dimensions_agree (usage (runOps ops (resetAllUsage now s))).
Proof.
  intros Hops. apply dimensions_agree_preserved; [exact Hops|].
  unfold dimensions_agree, sumTotals; simpl.
  rewrite !map_fold_empty. repeat split; reflexivity.
Qed.

Lemma time_dimensions_sum_to_allTime_witness :
  dimensions_agree (usage (runOps [OpRecord dec31_2024 oneExchange;
                                   OpRecord dec31_2024 anonymousCall]
                                  (resetAllUsage dec31_2024 defaultSettings))).
Proof.
  apply time_dimensions_sum_to_allTime. repeat constructor.
Defined.

(** ** Keys are never removed and counters never decrease *)

Lemma grown_refl (m : gmap string Bucket) : grown m m.
Proof. intros k b Hk. exists b. repeat split; [exact Hk|lia..]. Qed.

Lemma grown_trans (m1 m2 m3 : gmap string Bucket) :
  grown m1 m2 → grown m2 m3 → grown m1 m3.
Proof.
  intros H12 H23 k b Hk.
  destruct (H12 k b Hk) as (b2 & Hk2 & ? & ? & ? & ?).
  destruct (H23 k b2 Hk2) as (b3 & Hk3 & ? & ? & ? & ?).
  exists b3. repeat split; [exact Hk3|lia..].
Qed.

Lemma grown_insert (m : gmap string Bucket) (k : string) (init b' : Bucket) :
  input (default init (m !! k)) ≤ input b' →
  output (default init (m !! k)) ≤ output b' →
  total (default init (m !! k)) ≤ total b' →
  messageCount (default init (m !! k)) ≤ messageCount b' →
  grown m (<[k:=b']> m).
Proof.
  intros Hi Ho Ht Hc j b Hj. rewrite lookup_insert. case_decide as Hkj.
  - subst j. rewrite Hj in Hi, Ho, Ht, Hc. simpl in *.
    exists b'. split; [reflexivity|]. repeat split; lia.
  - exists b. repeat split; [exact Hj|lia..].
Qed.

Lemma counted_grows (c : RecordCall) (b b' : Bucket) :
  nonnegCall c → counted c b b' →
  input b ≤ input b' ∧ output b ≤ output b'
  ∧ total b ≤ total b' ∧ messageCount b ≤ messageCount b'.
Proof.
  unfold nonnegCall, counted, totalTokens.
  intros (? & ? & ?) (-> & -> & _ & -> & ->). repeat split; lia.
Qed.

Lemma grown_recordKeyed (c : RecordCall) (k : string) (m : gmap string Bucket) :
  nonnegCall c → grown m (recordKeyed c k m).
Proof.
  intros Hc. rewrite recordKeyed_insert.
  destruct (counted_grows c _ _ Hc (addTokens_counted c (default emptyBucket (m !! k))))
    as (? & ? & ? & ?).
  apply (grown_insert m k emptyBucket); assumption.
Qed.

Lemma grown_recordIdentity (c : RecordCall) (id : option string)
    (m : gmap string Bucket) :
  nonnegCall c → grown m (recordIdentity c id m).
Proof.
  intros Hc. unfold recordIdentity.
  destruct (truthy id); [apply grown_recordKeyed, Hc|apply grown_refl].
Qed.

Lemma grown_recordDay (c : RecordCall) (k : string) (m : gmap string Bucket) :
  nonnegCall c → grown m (recordDay c k m).
Proof.
  intros Hc. rewrite recordDay_insert.
  destruct (counted_grows c _ _ Hc
              (dayBucketAfter_counted c (default newDayBucket (m !! k))))
    as (? & ? & ? & ?).
  apply (grown_insert m k newDayBucket); assumption.
Qed.

Lemma grown_recordHour (c : RecordCall) (k : string) (m : gmap string Bucket) :
  nonnegCall c → grown m (recordHour c k m).
Proof.
  intros Hc. rewrite recordHour_insert.
  destruct (counted_grows c _ _ Hc
              (hourBucketAfter_counted c (default newHourBucket (m !! k))))
    as (? & ? & ? & ?).
  apply (grown_insert m k newHourBucket); assumption.
Qed.

Lemma store_grown_refl (u : Usage) : store_grown u u.
Proof. unfold store_grown. repeat split; try apply grown_refl. lia. Qed.

Lemma store_grown_trans (u1 u2 u3 : Usage) :
  store_grown u1 u2 → store_grown u2 u3 → store_grown u1 u3.
Proof.
  unfold store_grown.
  intros (? & ? & ? & ? & ? & ? & ? & ?) (? & ? & ? & ? & ? & ? & ? & ?).
  repeat split; try (eapply grown_trans; eassumption). lia.
Qed.

Lemma store_grown_runOp (op : StoreOp) (s : Settings) :
  nonnegOp op → store_grown (usage s) (usage (runOp op s)).
Proof.
  destruct op as [now c|now|parsed]; simpl; intros Hop; [| |contradiction].
  - unfold store_grown; simpl.
    repeat split;
      auto using grown_recordKeyed, grown_recordIdentity, grown_recordDay,
        grown_recordHour.
    destruct Hop as (? & ? & ?). unfold totalTokens. lia.
  - unfold store_grown; simpl. repeat split; try apply grown_refl. lia.
Qed.

(** X4: Under [recordUsage] calls with non-negative amounts and session
    resets, the keyed maps are append-only and monotone: no key of
    [byDay], [byHour], [byWeek], [byMonth], [byChat], [byModel] or
    [bySource] ever disappears, none of its [input], [output], [total]
    and [messageCount] ever decreases, and neither does [allTime.total]. *)
Theorem store_only_grows (ops : list StoreOp) (s : Settings) :
  Forall nonnegOp ops → store_grown (usage s) (usage (runOps ops s)).
Proof.
  intros Hops. unfold runOps. revert s.
  induction Hops as [|op ops Hop _ IH]; intros s; simpl.
  - apply store_grown_refl.
  - eapply store_grown_trans; [apply store_grown_runOp, Hop|apply IH].
Qed.

Lemma store_only_grows_witness :
  store_grown (usage storeA)
    (usage (runOps [OpRecord dec31_2024 anonymousCall; OpResetSession dec31_2024] storeA)).
Proof.
  apply store_only_grows.
  repeat constructor; simpl; lia.
Defined.

(** ** Per-chat attribution *)



(** ** Range queries *)

Lemma string_compare_trans (s1 s2 s3 : string) :
  String.compare s1 s2 ≠ Gt → String.compare s2 s3 ≠ Gt → String.compare s1 s3 ≠ Gt.
Proof.
  revert s2 s3. induction s1 as [|c1 s1 IH]; intros [|c2 s2] [|c3 s3]; simpl;
    try congruence.
  unfold Ascii.compare.
  destruct (N.compare_spec (N_of_ascii c1) (N_of_ascii c2)) as [H12|H12|H12];
    destruct (N.compare_spec (N_of_ascii c2) (N_of_ascii c3)) as [H23|H23|H23];
    destruct (N.compare_spec (N_of_ascii c1) (N_of_ascii c3)) as [H13|H13|H13];
    try congruence; try lia.
  apply IH.
Qed.

Lemma string_leb_trans (s1 s2 s3 : string) :
  String.leb s1 s2 = true → String.leb s2 s3 = true → String.leb s1 s3 = true.
Proof.
  unfold String.leb. intros H12 H23.
  assert (H := string_compare_trans s1 s2 s3).
  destruct (String.compare s1 s2), (String.compare s2 s3), (String.compare s1 s3);
    try reflexivity; try discriminate; exfalso; apply H; congruence.
Qed.

Lemma addDayToRange_comm (startDate endDate k1 k2 : string) (b1 b2 acc : Bucket) :
  addDayToRange startDate endDate k1 b1 (addDayToRange startDate endDate k2 b2 acc)
    = addDayToRange startDate endDate k2 b2 (addDayToRange startDate endDate k1 b1 acc).
Proof.
  unfold addDayToRange.
  destruct (inRange startDate endDate k1), (inRange startDate endDate k2);
    try reflexivity.
  simpl. f_equal; lia.
Qed.

Lemma getUsageForRange_insert_fresh (startDate endDate k : string) (b : Bucket)
    (m : gmap string Bucket) :
  m !! k = None →
  map_fold (addDayToRange startDate endDate) emptyBucket (<[k:=b]> m)
    = addDayToRange startDate endDate k b
        (map_fold (addDayToRange startDate endDate) emptyBucket m).
Proof.
  intros Hk. apply map_fold_insert_L; [|exact Hk].
  intros. apply addDayToRange_comm.
Qed.

(** The result of [getUsageForRange] has the four counters only, and a
    range in which no day of the store lies gives four zeros. *)
Lemma getUsageForRange_outside (startDate endDate : string) (m : gmap string Bucket) :
  (∀ k b, m !! k = Some b → inRange startDate endDate k = false) →
  map_fold (addDayToRange startDate endDate) emptyBucket m = emptyBucket.
Proof.
  induction m as [|k b m Hk IH] using map_ind; intros Hout.
  - apply map_fold_empty.
  - rewrite getUsageForRange_insert_fresh by exact Hk.
    rewrite IH.
    + unfold addDayToRange. rewrite (Hout k b) by apply lookup_insert_eq. reflexivity.
    + intros j bj Hj. apply (Hout j bj).
      rewrite lookup_insert_ne; [exact Hj|]. intros ->. congruence.
Qed.

(** X6: [getUsageForRange(startDate, endDate)] with [endDate] before
    [startDate] is [{ input: 0, output: 0, total: 0, messageCount: 0 }],
    whatever the store holds. *)
Theorem getUsageForRange_inverted (s : Settings) (startDate endDate : string) :
  String.ltb endDate startDate = true →
  getUsageForRange s startDate endDate = emptyBucket.
Proof.
  intros Hinv. apply getUsageForRange_outside. intros k b _.
  unfold inRange.
  destruct (String.leb startDate k) eqn:H1, (String.leb k endDate) eqn:H2;
    try reflexivity.
  assert (H := string_leb_trans _ _ _ H1 H2).
  unfold String.ltb in Hinv. unfold String.leb in H.
  rewrite String.compare_antisym in H.
  destruct (String.compare endDate startDate); simpl in *; discriminate.
Qed.

Lemma getUsageForRange_inverted_witness :
  getUsageForRange storeA "2025-01-01" "2024-01-01" = emptyBucket.
Proof. apply getUsageForRange_inverted. reflexivity. Defined.

Lemma getUsageForRange_upsert (startDate endDate k : string) (b' : Bucket)
    (m : gmap string Bucket) :
  let R := map_fold (addDayToRange startDate endDate) emptyBucket in
  let w := if inRange startDate endDate k then 1 else 0 in
  input (R (<[k:=b']> m)) = input (R m) + w * (input b' - from_option input 0 (m !! k))
  ∧ output (R (<[k:=b']> m))
    = output (R m) + w * (output b' - from_option output 0 (m !! k))
  ∧ total (R (<[k:=b']> m)) = total (R m) + w * (total b' - from_option total 0 (m !! k))
  ∧ messageCount (R (<[k:=b']> m))
    = messageCount (R m) + w * (messageCount b' - from_option messageCount 0 (m !! k)).
Proof.
  cbn zeta. destruct (m !! k) as [b|] eqn:Hk; simpl.
  - rewrite <- (insert_delete_eq m k b').
    rewrite <- (insert_delete_id m k b Hk) at 2 4 6 8.
    rewrite !getUsageForRange_insert_fresh by apply lookup_delete_eq.
    unfold addDayToRange. destruct (inRange startDate endDate k); simpl;
      repeat split; lia.
  - rewrite getUsageForRange_insert_fresh by exact Hk.
    unfold addDayToRange. destruct (inRange startDate endDate k); simpl;
      repeat split; lia.
Qed.

Lemma getUsageForRange_upsert_outside (startDate endDate k : string) (b' : Bucket)
    (m : gmap string Bucket) :
  inRange startDate endDate k = false →
  map_fold (addDayToRange startDate endDate) emptyBucket (<[k:=b']> m)
    = map_fold (addDayToRange startDate endDate) emptyBucket m.
Proof.
  intros Hout. destruct (m !! k) as [b|] eqn:Hk.
  - rewrite <- (insert_delete_eq m k b').
    rewrite <- (insert_delete_id m k b Hk) at 2.
    rewrite !getUsageForRange_insert_fresh by apply lookup_delete_eq.
    unfold addDayToRange. rewrite Hout. reflexivity.
  - rewrite getUsageForRange_insert_fresh by exact Hk.
    unfold addDayToRange. rewrite Hout. reflexivity.
Qed.

(** X7: A [recordUsage] call at time [now] adds its input, output and total
    and one message to [getUsageForRange(startDate, endDate)] when the
    day key of [now] lies in the range, and leaves the result unchanged
    when it does not. *)
Theorem getUsageForRange_after_record (now : Date) (c : RecordCall) (s : Settings)
    (startDate endDate : string) :
  let r := getUsageForRange s startDate endDate in
  let r' := getUsageForRange (recordUsage now c s) startDate endDate in
  (inRange startDate endDate (getDayKey now) = true →
     input r' = input r + inputTokens c
     ∧ output r' = output r + outputTokens c
     ∧ total r' = total r + totalTokens c
     ∧ messageCount r' = messageCount r + 1)
  ∧ (inRange startDate endDate (getDayKey now) = false → r' = r).
Proof.
  cbn zeta. unfold getUsageForRange, recordUsage; simpl.
  rewrite recordDay_insert. split.
  - intros Hin.
    destruct (getUsageForRange_upsert startDate endDate (getDayKey now)
                (dayBucketAfter c (default newDayBucket (byDay (usage s) !! getDayKey now)))
                (byDay (usage s))) as (Hi & Ho & Ht & Hc).
    rewrite Hin in Hi, Ho, Ht, Hc.
    destruct (dayBucketAfter_counted c
                (default newDayBucket (byDay (usage s) !! getDayKey now)))
      as (Ci & Co & _ & Ct & Cc).
    rewrite Hi, Ho, Ht, Hc, Ci, Co, Ct, Cc.
    destruct (byDay (usage s) !! getDayKey now); simpl; repeat split; lia.
  - intros Hout. apply getUsageForRange_upsert_outside, Hout.
Qed.

Lemma getUsageForRange_after_record_witness :
  total (getUsageForRange (recordUsage dec31_2024 anonymousCall storeA)
                          "2024-12-01" "2024-12-31")
    = total (getUsageForRange storeA "2024-12-01" "2024-12-31") + 345
  ∧ getUsageForRange (recordUsage dec31_2024 anonymousCall storeA)
                     "2024-11-01" "2024-11-30"
    = getUsageForRange storeA "2024-11-01" "2024-11-30".
Proof.
  destruct (getUsageForRange_after_record dec31_2024 anonymousCall storeA
              "2024-12-01" "2024-12-31") as [Hin _].
  destruct (getUsageForRange_after_record dec31_2024 anonymousCall storeA
              "2024-11-01" "2024-11-30") as [_ Hout].
  split.
  - destruct Hin as (_ & _ & Ht & _); [reflexivity|exact Ht].
  - apply Hout. reflexivity.
Defined.

(** ** The shape and order of the bucket keys *)

Lemma String_of_fourDigits (y : Z) : 1000 ≤ y ≤ 9999 → String_of y = fourDigits y.
Proof.
  intros Hy.
  assert (H : forallb (fun y => String.eqb (String_of y) (fourDigits y))
                      (seqZ 1000 9000) = true) by (vm_compute; reflexivity).
  rewrite forallb_forall in H.
  apply String.eqb_eq, H, list_elem_of_In, elem_of_seqZ. lia.
Qed.

Lemma pad2_twoDigits (n : Z) : 0 ≤ n ≤ 99 → pad2 n = twoDigits n.
Proof.
  intros Hn.
  assert (H : forallb (fun n => String.eqb (pad2 n) (twoDigits n))
                      (seqZ 0 100) = true) by (vm_compute; reflexivity).
  rewrite forallb_forall in H.
  apply String.eqb_eq, H, list_elem_of_In, elem_of_seqZ. lia.
Qed.

Lemma getDayKey_shape (date : Date) :
  plainDate (getEasternParts date) →
  getDayKey date
    = fourDigits (year (getEasternParts date))
        +:+ "-" +:+ twoDigits (month (getEasternParts date))
        +:+ "-" +:+ twoDigits (day (getEasternParts date)).
Proof.
  intros (Hy & Hm & Hd & _). unfold getDayKey; cbn zeta.
  rewrite String_of_fourDigits, !pad2_twoDigits by lia. reflexivity.
Qed.

Lemma digitChar_compare (a b : Z) :
  0 ≤ a ≤ 9 → 0 ≤ b ≤ 9 → Ascii.compare (digitChar a) (digitChar b) = (a ?= b).
Proof.
  intros Ha Hb.
  assert (H : forallb (fun a => forallb (fun b =>
                 bool_decide (Ascii.compare (digitChar a) (digitChar b) = (a ?= b)))
                 (seqZ 0 10)) (seqZ 0 10) = true) by (vm_compute; reflexivity).
  rewrite forallb_forall in H.
  specialize (H a). rewrite forallb_forall in H.
  eapply bool_decide_eq_true_1, H; apply list_elem_of_In, elem_of_seqZ; lia.
Qed.
Lemma ascii_compare_refl (c : ascii) : Ascii.compare c c = Eq.
Proof. apply N.compare_refl. Qed.

Lemma digits_of_year (y : Z) :
  1000 ≤ y ≤ 9999 →
  1 ≤ y / 1000 ≤ 9 ∧ 0 ≤ y / 100 mod 10 ≤ 9 ∧ 0 ≤ y / 10 mod 10 ≤ 9 ∧ 0 ≤ y mod 10 ≤ 9
  ∧ y = 1000 * (y / 1000) + 100 * (y / 100 mod 10) + 10 * (y / 10 mod 10) + y mod 10.
Proof. intros Hy. repeat split; Z.to_euclidean_division_equations; lia. Qed.

Lemma digits_of_two (n : Z) :
  0 ≤ n ≤ 99 →
  0 ≤ n / 10 ≤ 9 ∧ 0 ≤ n mod 10 ≤ 9 ∧ n = 10 * (n / 10) + n mod 10.
Proof. intros Hn. repeat split; Z.to_euclidean_division_equations; lia. Qed.

(** On calendar dates with four-digit years, the string order of day
    keys is the chronological order of the days. *)
Lemma getDayKey_order (d1 d2 : Date) :
  plainDate (getEasternParts d1) → plainDate (getEasternParts d2) →
  String.leb (getDayKey d1) (getDayKey d2) = true
    ↔ dayLe (getEasternParts d1) (getEasternParts d2).
Proof.
  intros H1 H2. rewrite !getDayKey_shape by assumption.
  destruct H1 as (Hy1 & Hm1 & Hd1 & _), H2 as (Hy2 & Hm2 & Hd2 & _).
  unfold dayLe.
  destruct (digits_of_year _ Hy1) as (? & ? & ? & ? & Ey1).
  destruct (digits_of_year _ Hy2) as (? & ? & ? & ? & Ey2).
  destruct (digits_of_two (month (getEasternParts d1))) as (? & ? & Em1); [lia|].
  destruct (digits_of_two (month (getEasternParts d2))) as (? & ? & Em2); [lia|].
  destruct (digits_of_two (day (getEasternParts d1))) as (? & ? & Ed1); [lia|].
  destruct (digits_of_two (day (getEasternParts d2))) as (? & ? & Ed2); [lia|].
  unfold String.leb, fourDigits, twoDigits. simpl String.append. simpl String.compare.
  rewrite !digitChar_compare by lia.
  repeat match goal with
         | |- context [?a ?= ?b] => destruct (Z.compare_spec a b)
         end;
    (split; [intros Hb; first [discriminate Hb | lia]
            | intros Hd; first [reflexivity | exfalso; lia]]).
Qed.



Lemma string_leb_refl (s : string) : String.leb s s = true.
Proof.
  unfold String.leb.
  assert (H : String.compare s s = Eq).
  { induction s as [|c s IH]; simpl; [reflexivity|].
    rewrite ascii_compare_refl. exact IH. }
  rewrite H. reflexivity.
Qed.

(** X8: The comparison [day >= startDate && day <= endDate] of
    [getUsageForRange], applied to the day keys of calendar dates with
    four-digit years, holds exactly when the day lies chronologically
    between the two dates (both ends included). *)
Theorem range_on_day_keys (first last d : Date) :
  plainDate (getEasternParts first) → plainDate (getEasternParts last) →
  plainDate (getEasternParts d) →
  inRange (getDayKey first) (getDayKey last) (getDayKey d) = true
    ↔ dayLe (getEasternParts first) (getEasternParts d)
      ∧ dayLe (getEasternParts d) (getEasternParts last).
Proof.
  intros Hf Hl Hd. unfold inRange.
  rewrite andb_true_iff, !getDayKey_order by assumption. reflexivity.
Qed.

Lemma range_on_day_keys_witness :
  inRange (getDayKey (mkDate (mkParts 2024 12 1 0) ""))
          (getDayKey (mkDate (mkParts 2025 1 15 0) ""))
          (getDayKey dec31_2024) = true.
Proof.
  apply range_on_day_keys.
  - unfold plainDate; simpl; lia.
  - unfold plainDate; simpl; lia.
  - unfold plainDate; simpl; lia.
  - unfold dayLe; simpl. lia.
Defined.

Lemma digitChar_inj (a b : Z) :
  0 ≤ a ≤ 9 → 0 ≤ b ≤ 9 → digitChar a = digitChar b → a = b.
Proof.
  intros Ha Hb H. apply Z.compare_eq.
  rewrite <- (digitChar_compare a b Ha Hb), H. apply ascii_compare_refl.
Qed.

Lemma getHourKey_shape (date : Date) :
  plainDate (getEasternParts date) →
  getHourKey date = getDayKey date +:+ "T" +:+ twoDigits (hour (getEasternParts date)).
Proof.
  intros Hp. pose proof Hp as (Hy & Hm & Hd & Hh).
  rewrite getDayKey_shape by exact Hp. unfold getHourKey; cbn zeta.
  rewrite String_of_fourDigits, !pad2_twoDigits by lia. reflexivity.
Qed.

Lemma getMonthKey_shape (date : Date) :
  plainDate (getEasternParts date) →
  getMonthKey date
    = fourDigits (year (getEasternParts date))
        +:+ "-" +:+ twoDigits (month (getEasternParts date)).
Proof.
  intros (Hy & Hm & _). unfold getMonthKey; cbn zeta.
  rewrite String_of_fourDigits, !pad2_twoDigits by lia. reflexivity.
Qed.

Ltac digits_equal :=
  repeat match goal with
         | H : digitChar ?a = digitChar ?b |- _ =>
             apply digitChar_inj in H; [|lia|lia]
         end.

Lemma keys_injective (d1 d2 : Date) :
  plainDate (getEasternParts d1) → plainDate (getEasternParts d2) →
  let p := getEasternParts d1 in
  let q := getEasternParts d2 in
  (getMonthKey d1 = getMonthKey d2 → year p = year q ∧ month p = month q)
  ∧ (getDayKey d1 = getDayKey d2 → year p = year q ∧ month p = month q ∧ day p = day q)
  ∧ (getHourKey d1 = getHourKey d2 →
       year p = year q ∧ month p = month q ∧ day p = day q ∧ hour p = hour q).
Proof.
  intros H1 H2. cbn zeta.
  rewrite !getHourKey_shape, !getDayKey_shape, !getMonthKey_shape by assumption.
  destruct H1 as (Hy1 & Hm1 & Hd1 & Hh1), H2 as (Hy2 & Hm2 & Hd2 & Hh2).
  destruct (digits_of_year _ Hy1) as (? & ? & ? & ? & Ey1).
  destruct (digits_of_year _ Hy2) as (? & ? & ? & ? & Ey2).
  destruct (digits_of_two (month (getEasternParts d1))) as (? & ? & Em1); [lia|].
  destruct (digits_of_two (month (getEasternParts d2))) as (? & ? & Em2); [lia|].
  destruct (digits_of_two (day (getEasternParts d1))) as (? & ? & Ed1); [lia|].
  destruct (digits_of_two (day (getEasternParts d2))) as (? & ? & Ed2); [lia|].
  destruct (digits_of_two (hour (getEasternParts d1))) as (? & ? & Eh1); [lia|].
  destruct (digits_of_two (hour (getEasternParts d2))) as (? & ? & Eh2); [lia|].
  unfold fourDigits, twoDigits. simpl String.append.
  split; [|split]; intros [=]; digits_equal; repeat split; lia.
Qed.

(** X9: On calendar dates with four-digit years, two dates have the same
    month key exactly when they agree on year and month, the same day
    key exactly when they also agree on the day, and the same hour key
    exactly when they also agree on the hour: no two months, days or
    hours share a bucket. *)
Theorem bucket_keys_injective (d1 d2 : Date) :
  plainDate (getEasternParts d1) → plainDate (getEasternParts d2) →
  let p := getEasternParts d1 in
  let q := getEasternParts d2 in
  (getMonthKey d1 = getMonthKey d2 ↔ year p = year q ∧ month p = month q)
  ∧ (getDayKey d1 = getDayKey d2 ↔ year p = year q ∧ month p = month q ∧ day p = day q)
  ∧ (getHourKey d1 = getHourKey d2 ↔
       year p = year q ∧ month p = month q ∧ day p = day q ∧ hour p = hour q).
Proof.
  intros H1 H2. cbn zeta.
  destruct (keys_injective d1 d2 H1 H2) as (Hm & Hd & Hh).
  split; [|split]; (split; [assumption|]).
  - intros (Ey & Em). unfold getMonthKey; cbn zeta. rewrite Ey, Em. reflexivity.
  - intros (Ey & Em & Ed). unfold getDayKey; cbn zeta. rewrite Ey, Em, Ed. reflexivity.
  - intros (Ey & Em & Ed & Eh). unfold getHourKey; cbn zeta.
    rewrite Ey, Em, Ed, Eh. reflexivity.
Qed.

Lemma bucket_keys_injective_witness :
  day (getEasternParts dec31_2024)
    = day (getEasternParts (mkDate (mkParts 2024 12 31 23) "")).
Proof.
  destruct (bucket_keys_injective dec31_2024 (mkDate (mkParts 2024 12 31 23) ""))
    as (_ & Hd & _).
  - unfold plainDate; simpl; lia.
  - unfold plainDate; simpl; lia.
  - destruct Hd as [Hd _]. destruct Hd as (_ & _ & E); [vm_compute; reflexivity|exact E].
Defined.

(** ** The week number that the code computes *)

Lemma weekNumber_unfold (date : Date) :
  weekNumber date
    = sundayWeek (dayNumber (getEasternParts date))
      - sundayWeek (DayFromYear (year (getEasternParts date))) + 1.
Proof.
  unfold weekNumber, Date_UTC, getUTCDay, Math_ceil_div, sundayWeek, dayNumber,
    dayOfYear; cbn zeta.
  set (y := year (getEasternParts date)).
  set (j := DayFromYear y).
  set (n := DaysBeforeMonth y (month (getEasternParts date) - 1)).
  set (dd := day (getEasternParts date)).
  change (DaysBeforeMonth y 0) with 0.
  replace ((j + n + dd - 1) * msPerDay - (j + 0 + 1 - 1) * msPerDay)
    with ((n + dd - 1) * msPerDay) by lia.
  replace ((j + 0 + 1 - 1) * msPerDay) with (j * msPerDay) by lia.
  rewrite !Z.div_mul by (unfold msPerDay; lia).
  Z.to_euclidean_division_equations. lia.
Qed.

Lemma dayOfYear_bounds (p : EasternParts) :
  plainDate p → 0 ≤ dayOfYear p ≤ 365.
Proof.
  intros (_ & Hm & Hd & _). unfold dayOfYear, DaysBeforeMonth.
  assert (Hc : month p = 1 ∨ month p = 2 ∨ month p = 3 ∨ month p = 4 ∨ month p = 5
               ∨ month p = 6 ∨ month p = 7 ∨ month p = 8 ∨ month p = 9
               ∨ month p = 10 ∨ month p = 11 ∨ month p = 12) by lia.
  destruct (InLeapYear (year p));
    repeat (destruct Hc as [->|Hc]; [simpl; lia|]); rewrite Hc; simpl; lia.
Qed.

(** X10: [getWeekKey] numbers Sunday-to-Saturday weeks from the week that
    holds 1 January: the week number of a date is one more than the
    number of Sundays after 1 January up to the date.  For a calendar
    date it lies between 1 and 54, 1 January is always in week 1, and two
    dates of one year get the same week number exactly when no Sunday
    separates them. *)
Theorem weekNumber_counts_sunday_weeks (d1 d2 : Date) :
  let p := getEasternParts d1 in
  let q := getEasternParts d2 in
  weekNumber d1 = sundayWeek (dayNumber p) - sundayWeek (DayFromYear (year p)) + 1
  ∧ (plainDate p → 1 ≤ weekNumber d1 ≤ 54)
  ∧ (month p = 1 → day p = 1 → weekNumber d1 = 1)
  ∧ (year p = year q →
     (weekNumber d1 = weekNumber d2
      ↔ sundayWeek (dayNumber p) = sundayWeek (dayNumber q))).
Proof.
  cbn zeta. rewrite !weekNumber_unfold.
  split; [reflexivity|]. split; [|split].
  - intros Hp. apply dayOfYear_bounds in Hp.
    unfold sundayWeek, dayNumber.
    set (j := DayFromYear (year (getEasternParts d1))) in *.
    set (n := dayOfYear (getEasternParts d1)) in *.
    Z.to_euclidean_division_equations. lia.
  - intros Hm Hd. unfold dayNumber, dayOfYear. rewrite Hm, Hd.
    change (DaysBeforeMonth (year (getEasternParts d1)) (1 - 1)) with 0.
    replace (DayFromYear (year (getEasternParts d1)) + (0 + 1 - 1))
      with (DayFromYear (year (getEasternParts d1))) by lia.
    lia.
  - intros ->. split; lia.
Qed.

Lemma weekNumber_counts_sunday_weeks_witness :
  1 ≤ weekNumber dec31_2024 ≤ 54
  ∧ weekNumber (mkDate (mkParts 2024 1 1 0) "") = 1.
Proof.
  destruct (weekNumber_counts_sunday_weeks dec31_2024 dec31_2024) as (_ & Hb & _).
  destruct (weekNumber_counts_sunday_weeks (mkDate (mkParts 2024 1 1 0) "") dec31_2024)
    as (_ & _ & Hj & _).
  split; [apply Hb; unfold plainDate; simpl; lia|apply Hj; reflexivity].
Defined.

(** ** Hour, day, week and month figures are nested *)

Lemma totalAt_recordKeyed (c : RecordCall) (k j : string) (m : gmap string Bucket) :
  totalAt (recordKeyed c k m) j
    = totalAt m j + (if decide (k = j) then totalTokens c else 0).
Proof.
  unfold totalAt. rewrite lookup_recordKeyed. case_decide; [subst j|lia].
  destruct (m !! k); simpl; lia.
Qed.

Lemma totalAt_recordDay (c : RecordCall) (k j : string) (m : gmap string Bucket) :
  totalAt (recordDay c k m) j
    = totalAt m j + (if decide (k = j) then totalTokens c else 0).
Proof.
  unfold totalAt. rewrite lookup_recordDay. case_decide; [subst j|lia]. simpl.
  destruct (dayBucketAfter_counted c (default newDayBucket (m !! k)))
    as (_ & _ & _ & -> & _).
  destruct (m !! k); simpl; lia.
Qed.

Lemma totalAt_recordHour (c : RecordCall) (k j : string) (m : gmap string Bucket) :
  totalAt (recordHour c k m) j
    = totalAt m j + (if decide (k = j) then totalTokens c else 0).
Proof.
  unfold totalAt. rewrite lookup_recordHour. case_decide; [subst j|lia]. simpl.
  destruct (hourBucketAfter_counted c (default newHourBucket (m !! k)))
    as (_ & _ & _ & -> & _).
  destruct (m !! k); simpl; lia.
Qed.

Lemma same_day_same_keys (d1 d2 : Date) :
  year (getEasternParts d1) = year (getEasternParts d2) →
  month (getEasternParts d1) = month (getEasternParts d2) →
  day (getEasternParts d1) = day (getEasternParts d2) →
  getDayKey d1 = getDayKey d2 ∧ getWeekKey d1 = getWeekKey d2
  ∧ getMonthKey d1 = getMonthKey d2.
Proof.
  intros Hy Hm Hd.
  unfold getDayKey, getWeekKey, getMonthKey, weekNumber; cbn zeta.
  rewrite Hy, Hm, Hd. auto.
Qed.

Lemma periods_nested_record (now : Date) (c : RecordCall) (s : Settings) :
  plainDate (getEasternParts now) → nonnegCall c →
  periods_nested (usage s) → periods_nested (usage (recordUsage now c s)).
Proof.
  intros Hnow (Hi & Ho & Hr) Hinv date Hdate.
  destruct (Hinv date Hdate) as (Hhd & Hdw & Hdm).
  unfold recordUsage; simpl.
  rewrite totalAt_recordHour, totalAt_recordDay, !totalAt_recordKeyed.
  assert (HT : 0 ≤ totalTokens c) by (unfold totalTokens; lia).
  destruct (keys_injective now date Hnow Hdate) as (_ & Hday & Hhour).
  destruct (decide (getDayKey now = getDayKey date)) as [Ed|Nd].
  - destruct (Hday Ed) as (Ey & Em & Edd).
    destruct (same_day_same_keys now date Ey Em Edd) as (_ & Ew & Emo).
    rewrite (decide_True (P := getWeekKey now = getWeekKey date)) by exact Ew.
    rewrite (decide_True (P := getMonthKey now = getMonthKey date)) by exact Emo.
    destruct (decide (getHourKey now = getHourKey date)); lia.
  - rewrite (decide_False (P := getHourKey now = getHourKey date)).
    + destruct (decide (getWeekKey now = getWeekKey date)),
               (decide (getMonthKey now = getMonthKey date)); lia.
    + intros Eh. apply Nd. destruct (Hhour Eh) as (Ey & Em & Edd & _).
      apply (same_day_same_keys now date Ey Em Edd).
Qed.

Lemma nonneg_totals_recordKeyed (c : RecordCall) (k : string) (m : gmap string Bucket) :
  nonnegCall c → nonneg_totals m → nonneg_totals (recordKeyed c k m).
Proof.
  intros (? & ? & ?) Hm j b. rewrite lookup_recordKeyed. case_decide.
  - intros [= <-]. simpl. unfold totalTokens.
    destruct (m !! k) as [b0|] eqn:Hk; simpl; [pose proof (Hm k b0 Hk); simpl in *|]; lia.
  - apply Hm.
Qed.

Lemma sumTotals_nonneg (m : gmap string Bucket) : nonneg_totals m → 0 ≤ sumTotals m.
Proof.
  induction m as [|k b m Hk IH] using map_ind; intros Hm.
  - unfold sumTotals. rewrite map_fold_empty. lia.
  - rewrite sumTotals_insert_fresh by exact Hk.
    pose proof (Hm k b (lookup_insert_eq m k b)) as Hb. simpl in Hb.
    assert (0 ≤ sumTotals m); [|lia].
    apply IH. intros j bj Hj. apply (Hm j bj).
    rewrite lookup_insert_ne; [exact Hj|]. intros ->. congruence.
Qed.

Lemma totalAt_le_sumTotals (m : gmap string Bucket) (k : string) :
  nonneg_totals m → totalAt m k ≤ sumTotals m.
Proof.
  intros Hm. unfold totalAt. destruct (m !! k) as [b|] eqn:Hk; simpl.
  - rewrite <- (insert_delete_id m k b Hk) at 1.
    rewrite sumTotals_insert_fresh by apply lookup_delete_eq.
    assert (0 ≤ sumTotals (delete k m)); [|lia].
    apply sumTotals_nonneg. intros j bj Hj.
    apply (Hm j bj). apply lookup_delete_Some in Hj as [_ Hj]. exact Hj.
  - apply sumTotals_nonneg, Hm.
Qed.

Lemma plainOp_not_import (ops : list StoreOp) :
  Forall plainOp ops → Forall (fun op => isImport op = false) ops.
Proof.
  intros H. eapply Forall_impl; [exact H|].
  intros [now c|now|parsed]; simpl; [reflexivity..|contradiction].
Qed.

(** X11: From a full reset and through [recordUsage] calls with non-negative
    amounts (at calendar dates with four-digit years) and session resets,
    the figures of [getUsageStats] are nested at every moment:
    [thisHour.total <= today.total], [today.total <= thisWeek.total],
    [today.total <= thisMonth.total], and the week and month totals are
    at most [allTime.total]. *)
Theorem getUsageStats_nested (ops : list StoreOp) (now0 now : Date) (s : Settings) :
  Forall plainOp ops → plainDate (getEasternParts now) →
  let st := getUsageStats now (runOps ops (resetAllUsage now0 s)) in
  total (stats_thisHour st) ≤ total (stats_today st)
  ∧ total (stats_today st) ≤ total (stats_thisWeek st)
  ∧ total (stats_today st) ≤ total (stats_thisMonth st)
  ∧ total (stats_thisWeek st) ≤ total (stats_allTime st)
  ∧ total (stats_thisMonth st) ≤ total (stats_allTime st).
Proof.
  intros Hops Hnow. cbn zeta.
  assert (Hinv : periods_nested (usage (runOps ops (resetAllUsage now0 s)))
                 ∧ nonneg_totals (byWeek (usage (runOps ops (resetAllUsage now0 s))))
                 ∧ nonneg_totals (byMonth (usage (runOps ops (resetAllUsage now0 s))))).
  { eapply (Forall_runOps_ind
              (fun s => periods_nested (usage s) ∧ nonneg_totals (byWeek (usage s))
                        ∧ nonneg_totals (byMonth (usage s)))); [|exact Hops|].
    - intros [now' c|now'|parsed] s' Hq (Hn & Hw & Hm); simpl in Hq; [| |contradiction].
      + destruct Hq as [Hp Hc]. split; [apply periods_nested_record; assumption|].
        simpl. split; apply nonneg_totals_recordKeyed; assumption.
      + simpl. auto.
    - split; [|split; apply map_Forall_empty].
      intros date _. unfold totalAt, resetAllUsage, set_usage, defaultUsage; simpl.
      rewrite !lookup_empty. simpl. lia. }
  destruct Hinv as (Hn & Hw & Hm).
  assert (Hagree : dimensions_agree (usage (runOps ops (resetAllUsage now0 s)))).
  { apply dimensions_agree_preserved; [exact (plainOp_not_import ops Hops)|].
    unfold dimensions_agree, sumTotals; simpl.
    rewrite !map_fold_empty. repeat split; reflexivity. }
  destruct Hagree as (_ & _ & Sw & Sm).
  destruct (Hn now Hnow) as (Hhd & Hdw & Hdm).
  pose proof (totalAt_le_sumTotals _ (getWeekKey now) Hw) as Lw.
  pose proof (totalAt_le_sumTotals _ (getMonthKey now) Hm) as Lm.
  unfold totalAt in *. unfold getUsageStats; simpl.
  destruct (byHour _ !! getHourKey now), (byDay _ !! getDayKey now),
    (byWeek _ !! getWeekKey now), (byMonth _ !! getMonthKey now);
    simpl in *; repeat split; lia.
Qed.

Lemma getUsageStats_nested_witness :
  total (stats_today (getUsageStats dec31_2024
           (runOps [OpRecord dec31_2024 oneExchange]
                   (resetAllUsage dec31_2024 defaultSettings))))
    ≤ total (stats_thisMonth (getUsageStats dec31_2024
               (runOps [OpRecord dec31_2024 oneExchange]
                       (resetAllUsage dec31_2024 defaultSettings)))).
Proof.
  destruct (getUsageStats_nested [OpRecord dec31_2024 oneExchange]
              dec31_2024 dec31_2024 defaultSettings) as (_ & _ & H & _).
  - repeat constructor; unfold plainDate, nonnegCall; simpl; lia.
  - unfold plainDate; simpl; lia.
  - exact H.
Defined.

(** * Further properties of the import *)










(** * Further properties of the lifecycle handlers *)

Lemma handle_budget (h : Host) (e : Event) (t : Tracker) :
  (length (recorded (handle h e t)) + inFlight (handle h e t)
   ≤ length (recorded t) + inFlight t + startsGeneration (h, e))%nat.
Proof.
  unfold inFlight, startsGeneration.
  destruct e as [type dry|prompt dry|idx type| | |text|dry|]; simpl.
  - unfold handleGenerationStarted. destruct dry; [lia|].
    case_decide; [|simpl; lia].
    destruct (last (chat h)) as [m|]; [|simpl; lia].
    destruct (truthy_num (token_count m)); simpl; lia.
  - destruct dry; simpl; lia.
  - unfold handleMessageReceived. case_decide; [lia|].
    destruct (pendingInputTokensPromise t) eqn:Hp; [|rewrite Hp; lia].
    destruct (chat h !! idx) as [m|]; [|rewrite Hp; lia].
    destruct (truthy (mes m)); [|rewrite Hp; lia].
    simpl. rewrite length_app. simpl. lia.
  - unfold handleGenerationStopped.
    destruct (pendingInputTokensPromise t) eqn:Hp; [|rewrite Hp; lia].
    simpl. rewrite length_app. simpl. lia.
  - destruct (pendingInputTokensPromise t); lia.
  - unfold handleImpersonateReady.
    destruct (pendingInputTokensPromise t) eqn:Hp; [|rewrite Hp; lia].
    simpl. rewrite length_app. simpl. lia.
  - unfold quietFlushListener. destruct dry; [lia|].
    destruct (_ && _); [|lia]. unfold flushQuietGeneration.
    destruct (pendingInputTokensPromise t) eqn:Hp; [|rewrite Hp; lia].
    destruct (_ || _); simpl; rewrite ?length_app; simpl; lia.
  - unfold settleBaselineTask. destruct (baselineTasks t); simpl; lia.
Qed.

Lemma handleAll_budget (events : list (Host * Event)) (t : Tracker) :
  (length (recorded (handleAll events t)) + inFlight (handleAll events t)
   ≤ length (recorded t) + inFlight t + generationsStarted events)%nat.
Proof.
  unfold handleAll, generationsStarted. revert t.
  induction events as [|[h e] events IH]; intros t; [simpl; lia|].
  rewrite fmap_cons. cbn [foldl foldr fst snd].
  specialize (IH (handle h e t)). pose proof (handle_budget h e t). lia.
Qed.

Lemma replay_app (a b : list (Date * RecordCall)) (s : Settings) :
  replay (a ++ b) s = replay b (replay a s).
Proof. unfold replay, runOps. rewrite fmap_app, foldl_app. reflexivity. Qed.

Lemma handle_replay (h : Host) (e : Event) (t : Tracker) :
  ∃ timed : list (Date * RecordCall),
    recorded (handle h e t) = (recorded t ++ timed.*2)%list
    ∧ settings (handle h e t) = replay timed (settings t).
Proof.
  assert (Hnone : ∀ t', recorded t' = recorded t → settings t' = settings t →
            ∃ timed : list (Date * RecordCall),
              recorded t' = (recorded t ++ timed.*2)%list
              ∧ settings t' = replay timed (settings t)).
  { intros t' Hr Hs. exists []. rewrite Hr, Hs, app_nil_r. split; reflexivity. }
  assert (Hone : ∀ c t', recorded t' = (recorded t ++ [c])%list →
            settings t' = recordUsage (getCurrentEasternTime h) c (settings t) →
            ∃ timed : list (Date * RecordCall),
              recorded t' = (recorded t ++ timed.*2)%list
              ∧ settings t' = replay timed (settings t)).
  { intros c t' Hr Hs. exists [(getCurrentEasternTime h, c)].
    rewrite Hr, Hs. split; reflexivity. }
  destruct e as [type dry|prompt dry|idx type| | |text|dry|]; simpl.
  - apply Hnone; unfold handleGenerationStarted; destruct dry; try reflexivity;
      case_decide; try reflexivity;
      destruct (last (chat h)) as [m|]; try reflexivity;
      destruct (truthy_num (token_count m)); reflexivity.
  - apply Hnone; destruct dry; reflexivity.
  - unfold handleMessageReceived. case_decide; [apply Hnone; reflexivity|].
    destruct (pendingInputTokensPromise t); [|apply Hnone; reflexivity].
    destruct (chat h !! idx) as [m|]; [|apply Hnone; reflexivity].
    destruct (truthy (mes m)); [|apply Hnone; reflexivity].
    eapply Hone; reflexivity.
  - unfold handleGenerationStopped.
    destruct (pendingInputTokensPromise t); [|apply Hnone; reflexivity].
    eapply Hone; reflexivity.
  - apply Hnone; reflexivity.
  - unfold handleImpersonateReady.
    destruct (pendingInputTokensPromise t); [|apply Hnone; reflexivity].
    eapply Hone; reflexivity.
  - unfold quietFlushListener. destruct dry; [apply Hnone; reflexivity|].
    destruct (_ && _); [|apply Hnone; reflexivity]. unfold flushQuietGeneration.
    destruct (pendingInputTokensPromise t); [|apply Hnone; reflexivity].
    destruct (_ || _); [eapply Hone; reflexivity|apply Hnone; reflexivity].
  - apply Hnone; unfold settleBaselineTask; destruct (baselineTasks t); reflexivity.
Qed.

Lemma replay_allTime_total (timed : list (Date * RecordCall)) (s : Settings) :
  total (allTime (usage (replay timed s)))
    = total (allTime (usage s)) + sumZ (totalTokens <$> timed.*2).
Proof.
  unfold replay. rewrite runOps_allTime_total. f_equal.
  induction timed as [|[now c] timed IH]; [reflexivity|].
  rewrite !fmap_cons, !sumZ_cons, IH. reflexivity.
Qed.

Lemma replay_prices_colors (timed : list (Date * RecordCall)) (s : Settings) :
  modelPrices (replay timed s) = modelPrices s
  ∧ modelColors (replay timed s) = modelColors s.
Proof.
  unfold replay, runOps. revert s.
  induction timed as [|[now c] timed IH]; intros s; [split; reflexivity|].
  exact (IH (recordUsage now c s)).
Qed.

Lemma handleAll_replay (events : list (Host * Event)) (t : Tracker) :
  ∃ timed : list (Date * RecordCall),
    recorded (handleAll events t) = (recorded t ++ timed.*2)%list
    ∧ settings (handleAll events t) = replay timed (settings t).
Proof.
  unfold handleAll. revert t.
  induction events as [|[h e] events IH]; intros t.
  - exists []. simpl. rewrite app_nil_r. split; reflexivity.
  - cbn [foldl fst snd].
    destruct (IH (handle h e t)) as (timed2 & Hr2 & Hs2).
    destruct (handle_replay h e t) as (timed1 & Hr1 & Hs1).
    exists (timed1 ++ timed2)%list.
    rewrite Hr2, Hs2, Hr1, Hs1, replay_app, fmap_app, app_assoc.
    split; reflexivity.
Qed.


(** X16: Through any sequence of lifecycle handlers, the store changes only
    by the [recordUsage] calls that the handlers make: the settings at
    the end are the settings at the start with those calls replayed in
    order, prices and colors are untouched, and [allTime.total] has
    grown by the sum of the calls' totals. *)
Theorem handlers_change_store_only_by_records (events : list (Host * Event))
    (t : Tracker) :
  ∃ timed : list (Date * RecordCall),
    recorded (handleAll events t) = (recorded t ++ timed.*2)%list
    ∧ settings (handleAll events t) = replay timed (settings t)
    ∧ modelPrices (settings (handleAll events t)) = modelPrices (settings t)
    ∧ modelColors (settings (handleAll events t)) = modelColors (settings t)
    ∧ total (allTime (usage (settings (handleAll events t))))
      = total (allTime (usage (settings t))) + sumZ (totalTokens <$> timed.*2).
Proof.
  destruct (handleAll_replay events t) as (timed & Hr & Hs). exists timed.
  split; [exact Hr|]. split; [exact Hs|]. rewrite Hs.
  destruct (replay_prices_colors timed (settings t)) as [Hp Hc].
  split; [exact Hp|]. split; [exact Hc|apply replay_allTime_total].
Qed.

(** X17: Without a generation in flight and without a new one being started,
    no sequence of lifecycle handlers records anything or changes the
    store: late or duplicate events are ignored.  In particular nothing
    is recorded for a generation that a chat change has abandoned. *)
Theorem no_generation_no_record (events : list (Host * Event)) (t : Tracker) :
  generationsStarted events = 0%nat →
  (inFlight t = 0%nat →
     recorded (handleAll events t) = recorded t
     ∧ settings (handleAll events t) = settings t)
  ∧ recorded (handleAll events (handleChatChanged t)) = recorded t
  ∧ settings (handleAll events (handleChatChanged t)) = settings t.
Proof.
  intros Hstarts.
  assert (H : ∀ t0, inFlight t0 = 0%nat →
            recorded (handleAll events t0) = recorded t0
            ∧ settings (handleAll events t0) = settings t0).
  { intros t0 Hidle.
    destruct (handleAll_replay events t0)
      as (timed & Hr & Hs).
    pose proof (handleAll_budget events t0) as Hb.
    rewrite Hr, length_app, length_fmap, Hstarts, Hidle in Hb.
    destruct timed as [|x timed]; [|simpl in Hb; lia].
    rewrite Hr, Hs. simpl. rewrite app_nil_r. split; reflexivity. }
  split; [apply H|]. apply (H (handleChatChanged t)). reflexivity.
Qed.

Lemma no_generation_no_record_witness :
  recorded (handleAll [(stoppedHost, GenerationStopped);
                       (stoppedHost, MessageReceived 0%nat "normal")]
                      (handleChatChanged stoppedTracker))
    = recorded stoppedTracker.
Proof.
  destruct (no_generation_no_record
              [(stoppedHost, GenerationStopped);
               (stoppedHost, MessageReceived 0%nat "normal")] stoppedTracker)
    as (_ & H & _); [reflexivity|exact H].
Defined.

(** X18: When a received message is finalized (any type other than
    'command', 'first_message' and 'continue'), the record's reasoning
    count is the tokenizer's count of the reasoning text, and its output
    count comes from the host's [token_count] when that is a non-zero
    number: the host count minus the reasoning when the reasoning is
    positive and smaller than the host count (output and reasoning then
    add up to the host count), the host count itself otherwise.  Without
    a usable host count the output is the tokenizer's count of the
    message text. *)
Theorem message_reasoning_split (h : Host) (messageIndex : nat) (type : string)
    (t : Tracker) (inputTokens0 : Z) (message : Message) :
  pendingInputTokensPromise t = Some inputTokens0 →
  chat h !! messageIndex = Some message →
  is_truthy (mes message) = true →
  type ≠ "command" → type ≠ "first_message" → type ≠ "continue" →
  ∃ c, recorded (handleMessageReceived h messageIndex type t) = (recorded t ++ [c])%list
       ∧ inputTokens c = inputTokens0
       ∧ reasoningTokens c = countTokens h (msg_reasoning message)
       ∧ match truthy_num (token_count message) with
         | Some tc =>
             (0 < reasoningTokens c < tc → outputTokens c + reasoningTokens c = tc)
             ∧ (¬ (0 < reasoningTokens c < tc) → outputTokens c = tc)
         | None => outputTokens c = countTokens h (mes message)
         end.
Proof.
  intros Hp Hm Hmes Hc Hf Hcont. unfold handleMessageReceived.
  rewrite decide_False by (intros [?|?]; contradiction).
  rewrite Hp, Hm. unfold is_truthy in Hmes.
  destruct (truthy (mes message)); [|discriminate].
  rewrite bool_decide_eq_false_2 by exact Hcont. simpl.
  eexists. split; [reflexivity|]. simpl.
  split; [reflexivity|]. split; [reflexivity|].
  unfold messageOutputTokens, messageReasoningTokens.
  destruct (truthy_num (token_count message)) as [tc|]; [|reflexivity].
  destruct (_ && _) eqn:Hb.
  - apply andb_true_iff in Hb as [H1 H2]. apply Z.ltb_lt in H1, H2.
    split; intros; lia.
  - apply andb_false_iff in Hb. split; [|reflexivity].
    intros [H1 H2]. destruct Hb as [Hb|Hb]; apply Z.ltb_ge in Hb; lia.
Qed.

Lemma message_reasoning_split_witness :
  ∃ c, recorded (handleMessageReceived
                   (charHost [mkMessage (Some "Hi") (Some 10) (Some "abc")] None)
                   0%nat "normal" stoppedTracker) = [c]
       ∧ reasoningTokens c = 3.
Proof.
  destruct (message_reasoning_split
              (charHost [mkMessage (Some "Hi") (Some 10) (Some "abc")] None)
              0%nat "normal" stoppedTracker 300
              (mkMessage (Some "Hi") (Some 10) (Some "abc")))
    as (c & Hr & _ & Hc & _); try reflexivity; try discriminate.
  exists c. split; [exact Hr|exact Hc].
Defined.

(** X19: [handleImpersonateReady] without a pending input count changes
    nothing; with one it makes exactly one usage record, of the awaited
    input count and the tokenizer's count of the impersonated text (0
    for a missing or empty text), with no reasoning, and clears the
    pending state and the impersonate flag. *)
Theorem impersonate_records_once (h : Host) (text : option string) (t : Tracker) :
  (pendingInputTokensPromise t = None → handleImpersonateReady h text t = t)
  ∧ (∀ inputTokens0, pendingInputTokensPromise t = Some inputTokens0 →
       let t' := handleImpersonateReady h text t in
       let c := mkCall inputTokens0 (countTokens h text) (getCurrentChatId h)
                       (pendingModelId t) (pendingSourceId t) 0 in
       recorded t' = (recorded t ++ [c])%list
       ∧ settings t' = recordUsage (getCurrentEasternTime h) c (settings t)
       ∧ pendingInputTokensPromise t' = None
       ∧ isImpersonateGeneration t' = false
       ∧ (truthy text = None → outputTokens c = 0)).
Proof.
  split.
  - intros Hp. unfold handleImpersonateReady. rewrite Hp. reflexivity.
  - intros inputTokens0 Hp. cbn zeta. unfold handleImpersonateReady. rewrite Hp.
    do 4 (split; [reflexivity|]).
    intros Ht. simpl. unfold countTokens. rewrite Ht. reflexivity.
Qed.

Lemma impersonate_records_once_witness :
  recorded (handleImpersonateReady stoppedHost (Some "I nod.") stoppedTracker)
    = [mkCall 300 6 (Some "chat-1") (Some "gpt-4o") (Some "openai") 0].
Proof.
  destruct (impersonate_records_once stoppedHost (Some "I nod.") stoppedTracker)
    as [_ H].
  destruct (H 300 eq_refl) as (Hr & _). exact Hr.
Defined.

(** X20: [flushQuietGeneration] always leaves no pending input count; when
    one was pending it also clears the quiet flag, and it makes a usage
    record (without chat id or reasoning) exactly when the input count or
    the streamed output count is positive. *)
Theorem flushQuietGeneration_clears (h : Host) (t : Tracker) :
  let t' := flushQuietGeneration h t in
  let outputTokens0 :=
    match streamingProcessor h with
    | Some sp => countTokens h (sp_result sp)
    | None => 0
    end in
  pendingInputTokensPromise t' = None
  ∧ (∀ inputTokens0, pendingInputTokensPromise t = Some inputTokens0 →
       isQuietGeneration t' = false
       ∧ (0 < inputTokens0 ∨ 0 < outputTokens0 →
            recorded t'
              = (recorded t ++ [mkCall inputTokens0 outputTokens0 None
                                       (pendingModelId t) (pendingSourceId t) 0])%list)
       ∧ (inputTokens0 ≤ 0 → outputTokens0 ≤ 0 →
            recorded t' = recorded t ∧ settings t' = settings t)).
Proof.
  cbn zeta. unfold flushQuietGeneration.
  assert (Hout : match streamingProcessor h with
                 | Some sp => if is_truthy (sp_result sp)
                              then countTokens h (sp_result sp) else 0
                 | None => 0
                 end
                 = match streamingProcessor h with
                   | Some sp => countTokens h (sp_result sp)
                   | None => 0
                   end).
  { destruct (streamingProcessor h) as [sp|]; [|reflexivity].
    unfold is_truthy, countTokens. destruct (truthy (sp_result sp)); reflexivity. }
  rewrite Hout.
  destruct (pendingInputTokensPromise t) as [inputTokens0|] eqn:Hp.
  - split; [reflexivity|]. intros ? [= <-].
    split; [reflexivity|]. split.
    + intros Hpos.
      destruct (_ || _) eqn:Hb; [reflexivity|].
      apply orb_false_iff in Hb as [H1 H2]. apply Z.ltb_ge in H1, H2. lia.
    + intros Hi Ho.
      destruct (_ || _) eqn:Hb; [|split; reflexivity].
      apply orb_true_iff in Hb as [Hb|Hb]; apply Z.ltb_lt in Hb; lia.
  - split; [exact Hp|]. intros ? [=].
Qed.

Lemma flushQuietGeneration_clears_witness :
  recorded (flushQuietGeneration stoppedHost stoppedTracker)
    = [mkCall 300 45 None (Some "gpt-4o") (Some "openai") 0].
Proof.
  destruct (flushQuietGeneration_clears stoppedHost stoppedTracker) as [_ H].
  destruct (H 300 eq_refl) as (_ & Hr & _).
  apply Hr. left. lia.
Defined.

(** ** Counting the prompt *)

Lemma sumZ_app (a b : list Z) : sumZ (a ++ b) = sumZ a + sumZ b.
Proof.
  induction a as [|x a IH]; [reflexivity|].
  rewrite <- app_comm_cons, !sumZ_cons, IH. lia.
Qed.

Lemma sumZ_nonneg (l : list Z) : Forall (fun x => 0 ≤ x) l → 0 ≤ sumZ l.
Proof.
  induction 1 as [|x l Hx _ IH]; [reflexivity|]. rewrite sumZ_cons. lia.
Qed.

Lemma sumZ_fmap_nonneg {A} (f : A → Z) (l : list A) :
  (∀ x, 0 ≤ f x) → 0 ≤ sumZ (f <$> l).
Proof.
  intros Hf. apply sumZ_nonneg, Forall_fmap, Forall_forall. intros x _. apply Hf.
Qed.

Lemma countFunctionRef_nonneg (h : Host) (f : option FunctionRef) :
  (∀ s, 0 ≤ tokenCount h s) → 0 ≤ countFunctionRef h f.
Proof.
  intros Hh. destruct f as [fn|]; simpl; [|lia].
  pose proof (countTokens_nonneg h (fn_name fn) Hh).
  pose proof (countTokens_nonneg h (fn_arguments fn) Hh). lia.
Qed.

Lemma countPromptMessage_nonneg (h : Host) (m : PromptMessage) :
  (∀ s, 0 ≤ tokenCount h s) → 0 ≤ countPromptMessage h m.
Proof.
  intros Hh. unfold countPromptMessage.
  assert (0 ≤ countContent h (pm_content m)).
  { destruct (pm_content m) as [[s|parts]|]; simpl; [apply countTokens_nonneg, Hh| |lia].
    apply sumZ_fmap_nonneg. intros part. unfold countPart.
    pose proof (countTokens_nonneg h (part_text part) Hh).
    repeat case_decide; lia. }
  pose proof (countTokens_nonneg h (pm_name m) Hh).
  assert (Htc : ∀ calls, 0 ≤ countToolCalls h calls).
  { intros calls. apply sumZ_fmap_nonneg. intros c. apply countFunctionRef_nonneg, Hh. }
  pose proof (Htc (pm_tool_calls m)). pose proof (Htc (pm_invocations m)).
  pose proof (countFunctionRef_nonneg h (pm_function_call m) Hh).
  destruct (is_truthy (pm_role m)); lia.
Qed.

(** X21: [countInputTokens] gives 0 for a missing or empty prompt; on message
    arrays it is additive (the count of two lists joined is the sum of
    their counts), and with a tokenizer that never returns a negative
    count it is at least 3 per message, the fixed formatting overhead. *)
Theorem countInputTokens_messages (h : Host) (a b : list PromptMessage) :
  countInputTokens h None = 0
  ∧ countInputTokens h (Some (PromptString "")) = 0
  ∧ countInputTokens h (Some (PromptMessages [])) = 0
  ∧ countInputTokens h (Some (PromptMessages (a ++ b)))
    = countInputTokens h (Some (PromptMessages a))
      + countInputTokens h (Some (PromptMessages b))
  ∧ ((∀ s, 0 ≤ tokenCount h s) →
     3 * Z.of_nat (length a) ≤ countInputTokens h (Some (PromptMessages a))).
Proof.
  split; [reflexivity|]. split; [reflexivity|]. split; [reflexivity|]. split.
  - simpl. rewrite fmap_app, sumZ_app, length_app. lia.
  - intros Hh. simpl.
    pose proof (sumZ_fmap_nonneg (countPromptMessage h) a
                  (fun m => countPromptMessage_nonneg h m Hh)). lia.
Qed.

Lemma countInputTokens_messages_witness :
  3 * Z.of_nat (length [mkPromptMessage (Some (ContentString "Hello")) (Some "user")
                                        None None None None])
    ≤ countInputTokens (charHost [] None)
        (Some (PromptMessages [mkPromptMessage (Some (ContentString "Hello"))
                                               (Some "user") None None None None])).
Proof.
  destruct (countInputTokens_messages (charHost [] None)
              [mkPromptMessage (Some (ContentString "Hello")) (Some "user")
                               None None None None] [])
    as (_ & _ & _ & _ & H).
  apply H. intros s. simpl. lia.
Defined.

(** * Further properties of the background wrappers *)

(** X22: When the original [sendRequest] returns with the guard clear at the
    start, the patched one returns the same result and records exactly
    one usage entry (input counted from the messages, output from the
    response, no chat id, no reasoning, the host's current model and
    source) if either count is positive, and nothing at all if neither
    is; a response that is neither a string nor an object with a string
    [content] counts as 0 output. *)
Theorem sendRequest_records (h : Host) (originalSendRequest : HostFn Response)
    (messages : list PromptMessage) (t t2 : Tracker) (res : Response) :
  isTrackingBackground t = false →
  originalSendRequest (set_tracking true t) = (Ok res, t2) →
  let inputTokens0 := countInputTokens h (Some (PromptMessages messages)) in
  let c := mkCall inputTokens0 (responseTokens h res) None
                  (Some (getCurrentModelId h)) (Some (getCurrentSourceId h)) 0 in
  (sendRequest h originalSendRequest messages t).1 = Ok res
  ∧ (0 < responseTokens h res ∨ 0 < inputTokens0 →
       sendRequest h originalSendRequest messages t
         = (Ok res, set_tracking false (record h c t2)))
  ∧ (responseTokens h res ≤ 0 → inputTokens0 ≤ 0 →
       sendRequest h originalSendRequest messages t = (Ok res, set_tracking false t2))
  ∧ (res = ResponseOther ∨ res = ResponseObject None → responseTokens h res = 0).
Proof.
  intros Hf Ho. cbn zeta. unfold sendRequest. rewrite Hf, Ho.
  change (match res with
          | ResponseObject (Some content) => countTokens h (Some content)
          | ResponseString s => countTokens h (Some s)
          | _ => 0
          end) with (responseTokens h res).
  split; [reflexivity|]. split; [|split].
  - intros Hpos. destruct (_ || _) eqn:Hb; [reflexivity|].
    apply orb_false_iff in Hb as [H1 H2]. apply Z.ltb_ge in H1, H2. lia.
  - intros H1 H2. destruct (_ || _) eqn:Hb; [|reflexivity].
    apply orb_true_iff in Hb as [Hb|Hb]; apply Z.ltb_lt in Hb; lia.
  - intros [-> | ->]; reflexivity.
Qed.

Lemma sendRequest_records_witness :
  recorded (sendRequest (charHost [] None) answering [] (initialTracker defaultSettings)).2
    = [mkCall 0 4 None (Some "gpt-4o") (Some "openai") 0].
Proof.
  destruct (sendRequest_records (charHost [] None) answering []
              (initialTracker defaultSettings)
              (set_tracking true (initialTracker defaultSettings))
              (ResponseString "fine") eq_refl eq_refl) as (_ & H & _).
  rewrite H by (left; vm_compute; reflexivity). reflexivity.
Defined.

(** X23: In [handleBackgroundGeneration], an exception of the input counter
    makes the input count 0 and an exception of the output counter
    makes the call unrecorded; neither reaches the caller, who still gets
    the original function's result, and the guard is released. *)
Theorem handleBackgroundGeneration_counter_errors (h : Host)
    (originalFn : HostFn Response) (inputCounter : unit → result Z)
    (outputCounter : Response → result Z) (t t2 : Tracker) (res : Response) :
  isTrackingBackground t = false →
  originalFn (set_tracking true t) = (Ok res, t2) →
  (∀ e, outputCounter res = Throw e →
     handleBackgroundGeneration h originalFn inputCounter outputCounter t
       = (Ok res, set_tracking false t2))
  ∧ (∀ e outputTokens0, inputCounter () = Throw e →
       outputCounter res = Ok outputTokens0 → 0 < outputTokens0 →
       handleBackgroundGeneration h originalFn inputCounter outputCounter t
         = (Ok res,
            set_tracking false
              (record h (mkCall 0 outputTokens0 None (Some (getCurrentModelId h))
                                (Some (getCurrentSourceId h)) 0) t2))).
Proof.
  intros Hf Ho. unfold handleBackgroundGeneration. rewrite Hf, Ho. split.
  - intros e ->. reflexivity.
  - intros e outputTokens0 -> -> Hpos.
    destruct (_ || _) eqn:Hb; [reflexivity|].
    apply orb_false_iff in Hb as [H1 _]. apply Z.ltb_ge in H1. lia.
Qed.

Lemma handleBackgroundGeneration_counter_errors_witness :
  handleBackgroundGeneration (charHost [] None) answering (fun _ => Ok 5)
      (fun _ => Throw "tokenizer down") (initialTracker defaultSettings)
    = (Ok (ResponseString "fine"), initialTracker defaultSettings).
Proof.
  destruct (handleBackgroundGeneration_counter_errors (charHost [] None) answering
              (fun _ => Ok 5) (fun _ => Throw "tokenizer down")
              (initialTracker defaultSettings)
              (set_tracking true (initialTracker defaultSettings))
              (ResponseString "fine") eq_refl eq_refl) as [H _].
  rewrite (H "tokenizer down" eq_refl). reflexivity.
Defined.

(** * The active model and source are never empty *)

Lemma or_else_nonempty (a : option string) (b : string) :
  b ≠ "" → Api.or_else a b ≠ "".
Proof.
  intros Hb. unfold Api.or_else, truthy. destruct a as [s|]; simpl; [|exact Hb].
  case_decide; simpl; assumption.
Qed.

(** X24: [getCurrentModelId()] and [getCurrentSourceId()] never return an
    empty string, whatever the host settings hold and even when
    [getChatCompletionModel()] throws (the model is then 'unknown'); so
    the [if (modelId)] and [if (sourceId)] tests of [recordUsage] always
    pass for ids obtained from them. *)
Theorem current_ids_never_empty (a : Api.State) :
  truthy (Some (Api.getCurrentModelId a)) = Some (Api.getCurrentModelId a)
  ∧ truthy (Some (Api.getCurrentSourceId a)) = Some (Api.getCurrentSourceId a)
  ∧ (∀ e, Api.main_api a = Some "openai" → Api.getChatCompletionModel a = Throw e →
          Api.getCurrentModelId a = "unknown")
  ∧ (Api.main_api a = None →
       Api.getCurrentModelId a = "unknown" ∧ Api.getCurrentSourceId a = "unknown").
Proof.
  assert (Hnonempty : ∀ s, s ≠ "" → truthy (Some s) = Some s).
  { intros s Hs. unfold truthy. rewrite decide_False by exact Hs. reflexivity. }
  split; [|split; [|split]].
  - apply Hnonempty. unfold Api.getCurrentModelId.
    repeat case_decide; try discriminate.
    + destruct (Api.getChatCompletionModel a); [|discriminate].
      apply or_else_nonempty, or_else_nonempty. discriminate.
    + apply or_else_nonempty. discriminate.
    + apply or_else_nonempty. discriminate.
  - apply Hnonempty. unfold Api.getCurrentSourceId.
    case_decide.
    + destruct (truthy (Api.chat_completion_source a)) as [src|] eqn:Hsrc.
      * unfold truthy in Hsrc. destruct (Api.chat_completion_source a); [|discriminate].
        case_decide; [discriminate|]. congruence.
      * apply or_else_nonempty. discriminate.
    + apply or_else_nonempty. discriminate.
  - intros e Hm He. unfold Api.getCurrentModelId.
    rewrite decide_True by exact Hm. rewrite He. reflexivity.
  - intros Hm. unfold Api.getCurrentModelId, Api.getCurrentSourceId.
    rewrite Hm. split; reflexivity.
Qed.

Lemma current_ids_never_empty_witness :
  Api.getCurrentModelId
    (Api.mkState (Some "openai") (Throw "not ready") None None None) = "unknown".
Proof.
  destruct (current_ids_never_empty
              (Api.mkState (Some "openai") (Throw "not ready") None None None))
    as (_ & _ & H & _).
  apply (H "not ready"); reflexivity.
Defined.

(** * Cost figures without prices *)

Lemma calculateCost_unpriced (s : Settings) (i o : float) (m : string) :
  unpriced s m → calculateCost s i o m = 0%float.
Proof. intros [H1 H2]. unfold calculateCost. rewrite H1, H2. reflexivity. Qed.

(** X25: For models without a configured price (or with prices of zero), the
    cost is exactly 0 whatever the token counts are (even where the
    arithmetic would give NaN), and [calculateAllTimeCost] over any
    enumeration of such models is exactly 0; in particular with no
    price configured at all. *)
Theorem costs_without_prices (s : Settings) (entries : list (string * Bucket)) :
  (∀ m i o, unpriced s m → calculateCost s i o m = 0%float)
  ∧ ((∀ e, e ∈ entries → unpriced s e.1) → calculateAllTimeCost s entries = 0%float)
  ∧ (modelPrices s = ∅ → calculateAllTimeCost s entries = 0%float).
Proof.
  assert (Hall : (∀ e, e ∈ entries → unpriced s e.1) →
                 calculateAllTimeCost s entries = 0%float).
  { unfold calculateAllTimeCost. induction entries as [|e entries IH]; intros Hu.
    - reflexivity.
    - cbn [foldl]. rewrite calculateCost_unpriced by (apply Hu; left).
      change (0 + 0)%float with 0%float.
      apply IH. intros e' He'. apply Hu. right. exact He'. }
  split; [intros m i o; apply calculateCost_unpriced|]. split; [exact Hall|].
  intros Hempty. apply Hall. intros e _.
  unfold unpriced, getModelPrice. rewrite Hempty, lookup_empty. split; reflexivity.
Qed.

Lemma costs_without_prices_witness :
  calculateAllTimeCost storeA (map_to_list (byModel (usage storeA))) = 0%float.
Proof.
  destruct (costs_without_prices storeA (map_to_list (byModel (usage storeA))))
    as (_ & _ & H).
  apply H. reflexivity.
Defined.

(** * A 'continue' generation from start to finish *)

(** X26: When a 'continue' generation starts on a last message that already
    carries a non-zero [token_count], that count is the baseline at once;
    after the prompt has been counted and the continued message is
    received, exactly one usage entry is recorded: its input is the count
    of that prompt, its model and source are those current when the
    prompt was sent, and its output is the received message's count minus
    the baseline, floored at zero. *)
Theorem continue_end_to_end (h0 h1 h2 : Host) (t : Tracker) (lastMessage message : Message)
    (baseline : Z) (prompt : option Prompt) (messageIndex : nat) :
  last (chat h0) = Some lastMessage →
  truthy_num (token_count lastMessage) = Some baseline → 0 < baseline →
  chat h2 !! messageIndex = Some message →
  is_truthy (mes message) = true →
  let t1 := handleGenerationStarted h0 "continue" false t in
  let t2 := handleGenerateAfterData h1 prompt false t1 in
  let t3 := handleMessageReceived h2 messageIndex "continue" t2 in
  recorded t3
    = (recorded t
       ++ [mkCall (countInputTokens h1 prompt)
                  (Z.max 0 (messageOutputTokens h2 message - baseline))
                  (getCurrentChatId h2)
                  (Some (getCurrentModelId h1)) (Some (getCurrentSourceId h1))
                  (messageReasoningTokens h2 message)])%list
  ∧ pendingInputTokensPromise t3 = None
  ∧ preContinueTokenCount t3 = 0.
Proof.
  intros Hlast Hb Hpos Hm Hmes. cbn zeta.
  unfold handleGenerationStarted. rewrite decide_True by reflexivity.
  rewrite Hlast, Hb. unfold handleGenerateAfterData, handleMessageReceived.
  rewrite decide_False by (intros [?|?]; discriminate). simpl.
  rewrite Hm. unfold is_truthy in Hmes.
  destruct (truthy (mes message)); [|discriminate].
  rewrite ?bool_decide_eq_true_2 by reflexivity.
  assert (Hlt : (0 <? baseline) = true) by (apply Z.ltb_lt; exact Hpos).
  rewrite Hlt. simpl. repeat split; reflexivity.
Qed.

Lemma continue_end_to_end_witness :
  outputTokens
    <$> recorded (handleMessageReceived (charHost [message620] None) 0%nat "continue"
                    (handleGenerateAfterData (charHost [message500] None)
                       (Some (PromptString "Hello")) false
                       (handleGenerationStarted (charHost [message500] None)
                          "continue" false (initialTracker defaultSettings))))
    = [120].
Proof.
  destruct (continue_end_to_end (charHost [message500] None) (charHost [message500] None)
              (charHost [message620] None) (initialTracker defaultSettings)
              message500 message620 500 (Some (PromptString "Hello")) 0%nat
              eq_refl eq_refl eq_refl eq_refl eq_refl)
    as (H & _).
  rewrite H. reflexivity.
Defined.



(** * Nested breakdowns add up *)



Lemma alter_ensure_insert {A} (g : A → A) (k : string) (init : A) (m : gmap string A) :
  alter g k (ensure k init m) = <[k := g (default init (m !! k))]> m.
Proof.
  apply map_eq. intros j. rewrite lookup_alter, !lookup_ensure, lookup_insert.
  destruct (decide (k = j)) as [->|Hne]; [|reflexivity].
  rewrite decide_True by reflexivity. reflexivity.
Qed.






(** * The order of two records does not matter *)

Lemma track_comm {A} (g1 g2 : A → A) (k1 k2 : string) (init : A) (m : gmap string A) :
  (∀ x, g1 (g2 x) = g2 (g1 x)) →
  alter g1 k1 (ensure k1 init (alter g2 k2 (ensure k2 init m)))
    = alter g2 k2 (ensure k2 init (alter g1 k1 (ensure k1 init m))).
Proof.
  intros Hg. rewrite !alter_ensure_insert. apply map_eq. intros j.
  rewrite !lookup_insert.
  destruct (decide (k1 = k2)) as [->|Hne].
  - rewrite !(decide_True (P := k2 = k2)) by reflexivity. simpl. rewrite Hg.
    destruct (decide (k2 = j)); reflexivity.
  - repeat case_decide; subst; try congruence; reflexivity.
Qed.

Lemma addTokens_comm (c1 c2 : RecordCall) (b : Bucket) :
  addTokens c1 (addTokens c2 b) = addTokens c2 (addTokens c1 b).
Proof. unfold addTokens; simpl. f_equal; try lia. f_equal. lia. Qed.

Lemma addModelData_comm (c1 c2 : RecordCall) (x : ModelData) :
  addModelData c1 (addModelData c2 x) = addModelData c2 (addModelData c1 x).
Proof. unfold addModelData; simpl. f_equal; lia. Qed.

Lemma trackModel_comm (c1 c2 : RecordCall) (m1 m2 : string)
    (ms : option (gmap string ModelData)) :
  trackModel c1 m1 (trackModel c2 m2 ms) = trackModel c2 m2 (trackModel c1 m1 ms).
Proof.
  unfold trackModel. simpl. f_equal. apply track_comm, addModelData_comm.
Qed.

Lemma addDaySource_comm (c1 c2 : RecordCall) (x : SourceData) :
  addDaySource c1 (addDaySource c2 x) = addDaySource c2 (addDaySource c1 x).
Proof.
  unfold addDaySource.
  destruct (truthy (modelId c1)), (truthy (modelId c2)); simpl;
    f_equal; try lia; apply trackModel_comm.
Qed.

Lemma addHourSource_comm (c1 c2 : RecordCall) (x : SourceData) :
  addHourSource c1 (addHourSource c2 x) = addHourSource c2 (addHourSource c1 x).
Proof. unfold addHourSource; simpl. f_equal; lia. Qed.

Lemma trackDaySource_comm (c1 c2 : RecordCall) (s1 s2 : string)
    (ss : option (gmap string SourceData)) :
  trackDaySource c1 s1 (trackDaySource c2 s2 ss)
    = trackDaySource c2 s2 (trackDaySource c1 s1 ss).
Proof.
  unfold trackDaySource. simpl. f_equal. apply track_comm, addDaySource_comm.
Qed.

Lemma trackHourSource_comm (c1 c2 : RecordCall) (s1 s2 : string)
    (ss : option (gmap string SourceData)) :
  trackHourSource c1 s1 (trackHourSource c2 s2 ss)
    = trackHourSource c2 s2 (trackHourSource c1 s1 ss).
Proof.
  unfold trackHourSource. simpl. f_equal. apply track_comm, addHourSource_comm.
Qed.

Lemma dayBucketAfter_comm (c1 c2 : RecordCall) (b : Bucket) :
  dayBucketAfter c1 (dayBucketAfter c2 b) = dayBucketAfter c2 (dayBucketAfter c1 b).
Proof.
  unfold dayBucketAfter.
  destruct (truthy (modelId c1)), (truthy (modelId c2)),
    (truthy (sourceId c1)), (truthy (sourceId c2));
    unfold set_models, set_sources, addTokens; simpl;
    f_equal; try lia; try (f_equal; lia);
    try apply trackModel_comm; try apply trackDaySource_comm.
Qed.

Lemma hourBucketAfter_comm (c1 c2 : RecordCall) (b : Bucket) :
  hourBucketAfter c1 (hourBucketAfter c2 b) = hourBucketAfter c2 (hourBucketAfter c1 b).
Proof.
  unfold hourBucketAfter.
  destruct (truthy (modelId c1)), (truthy (modelId c2)),
    (truthy (sourceId c1)), (truthy (sourceId c2));
    unfold set_models, set_sources, addTokens; simpl;
    f_equal; try lia; try (f_equal; lia);
    try apply trackModel_comm; try apply trackHourSource_comm.
Qed.

Lemma recordDay_alter (c : RecordCall) (k : string) (m : gmap string Bucket) :
  recordDay c k m = alter (dayBucketAfter c) k (ensure k newDayBucket m).
Proof. rewrite recordDay_insert, alter_ensure_insert. reflexivity. Qed.

Lemma recordHour_alter (c : RecordCall) (k : string) (m : gmap string Bucket) :
  recordHour c k m = alter (hourBucketAfter c) k (ensure k newHourBucket m).
Proof. rewrite recordHour_insert, alter_ensure_insert. reflexivity. Qed.

Lemma recordKeyed_comm (c1 c2 : RecordCall) (k1 k2 : string) (m : gmap string Bucket) :
  recordKeyed c1 k1 (recordKeyed c2 k2 m) = recordKeyed c2 k2 (recordKeyed c1 k1 m).
Proof. unfold recordKeyed. apply track_comm. intros x. apply addTokens_comm. Qed.

Lemma recordIdentity_comm (c1 c2 : RecordCall) (id1 id2 : option string)
    (m : gmap string Bucket) :
  recordIdentity c1 id1 (recordIdentity c2 id2 m)
    = recordIdentity c2 id2 (recordIdentity c1 id1 m).
Proof.
  unfold recordIdentity. destruct (truthy id1), (truthy id2); try reflexivity.
  apply recordKeyed_comm.
Qed.

(** X29: Two [recordUsage] calls, each at its own time, leave the same store
    in either order: every bucket, nested breakdown, price and color is
    the same. *)
Theorem recordUsage_commutes (now1 now2 : Date) (c1 c2 : RecordCall) (s : Settings) :
  recordUsage now1 c1 (recordUsage now2 c2 s)
    = recordUsage now2 c2 (recordUsage now1 c1 s).
Proof.
  unfold recordUsage, set_usage; simpl. f_equal. f_equal.
  - apply addTokens_comm.
  - apply addTokens_comm.
  - rewrite !recordDay_alter. apply track_comm. intros x. apply dayBucketAfter_comm.
  - rewrite !recordHour_alter. apply track_comm. intros x. apply hourBucketAfter_comm.
  - apply recordKeyed_comm.
  - apply recordKeyed_comm.
  - apply recordIdentity_comm.
  - apply recordIdentity_comm.
  - apply recordIdentity_comm.
Qed.
